(** * NIC Financial Health Analyzer: a shallow embedding of [nic_analyzer.py]

    The analyzer is one method, [FinancialHealthAnalyzer.analyze_nic_data],
    that takes eight monthly amounts and returns a dictionary of ratios,
    statuses, a 0-100 health score and a rule-based insight text.

    Numbers.  The amounts are Python numbers; here they are exact rationals
    ([Q]), so the arithmetic of the source is followed without the rounding of
    binary floating point, and the literals [0.50] and [0.30] are the
    rationals they denote.  [float("inf")] is kept as a sentinel of its own
    ([PosInf]); it is the only non-finite value the source constructs.

    Effects.  The two effects of the method are the exceptions it can raise
    and the divisions it performs.  Both are explicit: a computation returns
    either an exception or a value, together with the list of the divisors of
    the divisions it evaluated, in evaluation order.

    State.  The method reads and writes local variables only.  To make that
    a statement rather than a convention, its body is also given as a
    program on the object store ([Stateful.analyze_nic_data]), where the
    receiver is a reference and the dictionaries and the list the method
    builds are allocated objects; the two embeddings are related by
    symbolic execution. *)

From Stdlib Require Import QArith Qround Qabs ZArith String Ascii List Bool.
From Stdlib Require Import Lia Lqa DecimalString Morphisms Setoid.
Import ListNotations.

Open Scope Q_scope.

(** ** Python primitives used by the analyzer *)

Module Py.

Inductive exn : Type :=
| ValueError (msg : string)
| ZeroDivisionError
| KeyError (key : string).

(** A computation: its outcome and the divisors of the divisions it
    evaluated. *)
Definition M (A : Type) : Type := (exn + A) * list Q.

Definition ret {A : Type} (a : A) : M A := (inr a, []).

Definition raise {A : Type} (e : exn) : M A := (inl e, []).

(** [m], evaluated after the divisions by [t]. *)
Definition after {A : Type} (t : list Q) (m : M A) : M A :=
  let (r, t') := m in (r, t ++ t').

Definition bind {A B : Type} (m : M A) (k : A -> M B) : M B :=
  match m with
  | (inl e, t) => (inl e, t)
  | (inr a, t) => after t (k a)
  end.

Definition outcome {A : Type} (m : M A) : exn + A := fst m.
Definition divisors {A : Type} (m : M A) : list Q := snd m.

(** Comparisons [<] and [<=] on numbers. *)
Definition ltb (x y : Q) : bool :=
  match x ?= y with Lt => true | _ => false end.
Definition leb (x y : Q) : bool := Qle_bool x y.

(** [a / b]: true division; a zero divisor raises. *)
Definition truediv (a b : Q) : M Q :=
  if Qeq_bool b 0 then (inl ZeroDivisionError, [b]) else (inr (a / b), [b]).

(** A float that may be the sentinel [float("inf")]. *)
Inductive float : Type :=
| Fin (q : Q)
| PosInf.

(** [x < c], [x <= c] and [x != float("inf")] for such a float. *)
Definition float_ltb (x : float) (c : Q) : bool :=
  match x with Fin q => ltb q c | PosInf => false end.
Definition float_leb (x : float) (c : Q) : bool :=
  match x with Fin q => leb q c | PosInf => false end.
Definition is_not_inf (x : float) : bool :=
  match x with Fin _ => true | PosInf => false end.

(** Two-argument [max(a, b)] and [min(a, b)]: the first argument is kept
    unless the second is strictly greater (smaller). *)
Definition max (a b : Q) : Q := if ltb a b then b else a.
Definition min (a b : Q) : Q := if ltb b a then b else a.

(** Nearest integer, ties to the even one. *)
Definition round_half_even (q : Q) : Z :=
  let f := Qfloor q in
  let r := q - inject_Z f in
  if ltb r (1 # 2) then f
  else if ltb (1 # 2) r then (f + 1)%Z
  else if Z.even f then f else (f + 1)%Z.

Definition pow10 (n : nat) : Z := (10 ^ Z.of_nat n)%Z.

(** [round(x, ndigits)]; the result is kept in lowest terms. *)
Definition round (x : Q) (ndigits : nat) : Q :=
  Qred (inject_Z (round_half_even (x * inject_Z (pow10 ndigits)))
        / inject_Z (pow10 ndigits)).

(** [round] on a float that may be infinite: infinity rounds to itself. *)
Definition float_round (x : float) (ndigits : nat) : float :=
  match x with Fin q => Fin (round q ndigits) | PosInf => PosInf end.

(** Decimal digits of a natural number, as a string. *)
Definition digits (n : Z) : string :=
  NilZero.string_of_uint (N.to_uint (Z.to_N n)).

(** Left-pad with zeros to a given width. *)
Fixpoint zfill (width : nat) (s : string) : string :=
  match width with
  | O => s
  | S w => if Nat.ltb (String.length s) width
           then zfill w (String "0" s) else s
  end.

(** Thousands separators: a comma before every group of three digits,
    counted from the right. *)
Fixpoint group_rev (cs : list ascii) (k : nat) : list ascii :=
  match cs with
  | [] => []
  | c :: rest =>
      match k, rest with
      | S (S O), _ :: _ => c :: ","%char :: group_rev rest 0
      | _, _ => c :: group_rev rest (S k)
      end
  end.

Definition group_thousands (s : string) : string :=
  string_of_list_ascii
    (rev (group_rev (rev (list_ascii_of_string s)) 0)).

(** [format(x, ".<prec>f")], and [format(x, ",.<prec>f")] when [grouping]
    is set. *)
Definition format_f (grouping : bool) (prec : nat) (x : Q) : string :=
  let n := round_half_even (Qabs x * inject_Z (pow10 prec)) in
  let int_part := digits (n / pow10 prec) in
  let frac_part := zfill prec (digits (n mod pow10 prec)) in
  ((if ltb x 0 then "-" else "")
   ++ (if grouping then group_thousands int_part else int_part)
   ++ (match prec with O => "" | S _ => "." ++ frac_part end))%string.

(** A dictionary with string keys, in insertion order. *)
Definition dict : Type := list (string * Q).

Fixpoint get (d : dict) (k : string) : option Q :=
  match d with
  | [] => None
  | (k', v) :: rest => if String.eqb k k' then Some v else get rest k
  end.

(** [d[k]] *)
Definition subscript (d : dict) (k : string) : M Q :=
  match get d k with
  | Some v => ret v
  | None => raise (KeyError k)
  end.

(** One step of [max(d, key=d.get)]: the running maximum is replaced only
    by a key whose value is strictly greater. *)
Definition max_step (best : string * Q) (item : string * Q) : string * Q :=
  if ltb (snd best) (snd item) then item else best.

(** [max(d, key=d.get)]: the keys are visited in insertion order and each
    is compared by its value in [d]. *)
Definition max_key (d : dict) : M string :=
  match d with
  | [] => raise (ValueError "max() arg is an empty sequence"%string)
  | first :: rest => ret (fst (fold_left max_step rest first))
  end.

(** [" ".join(parts)] *)
Definition join (sep : string) (parts : list string) : string :=
  String.concat sep parts.

End Py.

Declare Scope py_scope.
Delimit Scope py_scope with py.
Notation "x <- m ;; k" := (Py.bind m (fun x => k))
  (at level 61, m at next level, right associativity) : py_scope.
Notation "' pat <- m ;; k" := (Py.bind m (fun x => match x with pat => k end))
  (at level 61, pat pattern, m at next level, right associativity) : py_scope.

Local Open Scope py_scope.

(** ** The analyzer *)

(** An instance of the class.  The class declares no attribute, so an
    instance carries only what a caller may have stored on it. *)
Record FinancialHealthAnalyzer : Type := { attributes : Py.dict }.

(** The sentences of the insight text that take no parameter. *)
Definition crisis_sentence : string :=
  ("⏰ สถานะการเงินของคุณเริ่มน่าห่วง "
   ++ "เพราะรายจ่ายรวมต่อเดือนสูงกว่าหรือเกือบเท่ารายได้สุทธิ "
   ++ "ควรพิจารณาลดรายจ่ายเร่งด่วน")%string.

Definition positive_sentence : string :=
  ("✅ ภาพรวมการใช้เงินของคุณอยู่ในเกณฑ์ดี ทั้งสัดส่วน Needs/Wants/การออม "
   ++ "และภาระหนี้ยังไม่เกินจุดเสี่ยง")%string.

(** The f-strings of the insight text. *)
Definition debt_sentence (dsr_status : string) (dsr_pct : Q) : string :=
  ("⚠️ ภาระหนี้ของคุณอยู่ในระดับ '" ++ dsr_status ++ "' "
   ++ "(DSR ≈ " ++ Py.format_f false 1 dsr_pct
   ++ "%) ควรระวังการสร้างหนี้เพิ่มและวางแผนปิดหนี้เดิม")%string.

Definition needs_sentence (needs_surplus_amount : Q) : string :=
  ("🍛 ค่าใช้จ่ายจำเป็น (Needs) เกินกรอบ 50% ของรายได้ ประมาณ "
   ++ Py.format_f true 0 needs_surplus_amount ++ " บาท/เดือน")%string.

Definition culprit_clause (culprit_item : string) (culprit_amount : Q)
  : string :=
  (" โดยหมวดที่ใช้เยอะสุดคือ '" ++ culprit_item ++ "' ประมาณ "
   ++ Py.format_f true 0 culprit_amount ++ " บาท/เดือน")%string.

Definition wants_sentence (wants_surplus_amount : Q) : string :=
  ("🎮 ค่าใช้จ่ายไม่จำเป็น (Wants) เกินกรอบ 30% ของรายได้ "
   ++ "ประมาณ " ++ Py.format_f true 0 wants_surplus_amount
   ++ " บาท/เดือน ลองตัดรายจ่ายฟุ่มเฟือยบางส่วน")%string.

(** The local variables of [analyze_nic_data] at its [return] statement. *)
Module Locals.
Record t : Type := {
  total_needs : Q;
  total_expenses_monthly : Q;
  savings_monthly_derived : Q;
  actual_needs_pct : Q;
  actual_wants_pct : Q;
  actual_savings_pct : Q;
  dsr_pct : Q;
  survival_ratio : Py.float;
  dsr_status : string;
  survival_status : string;
  needs_score : Q;
  wants_score : Q;
  savings_score : Q;
  debt_score : Q;
  health_score : Q;
  needs_surplus_amount : Q;
  wants_surplus_amount : Q;
  needs_items : Py.dict;
  culprit_item : option string;
  culprit_amount : Q;
  insights : list string;
  weakness_insight_text : string
}.
End Locals.

(** The dictionary [analyze_nic_data] returns, one field per key. *)
Record result : Type := {
  health_score : Q;
  actual_needs_pct : Q;
  actual_wants_pct : Q;
  actual_savings_pct : Q;
  dsr_pct : Q;
  dsr_status : string;
  survival_ratio : Py.float;
  survival_status : string;
  weakness_insight_text : string;
  culprit_item : option string;
  culprit_amount : Q;
  needs_surplus_amount : Q;
  wants_surplus_amount : Q
}.

(** The body of [analyze_nic_data] up to its [return] statement
    (safety check and sections 1 to 5). *)
Definition analyze_nic_data_locals (self : FinancialHealthAnalyzer)
  (net_income_monthly needs_food needs_housing needs_transport
   needs_utilities needs_insurance needs_debt wants_misc : Q)
  : Py.M Locals.t :=
  (* ---- Safety check ---- *)
  if Py.leb net_income_monthly 0
  then Py.raise (Py.ValueError "net_income_monthly ต้องมากกว่า 0"%string)
  else
  (* 1. Basic Calculations *)
  let total_needs :=
    needs_food + needs_housing + needs_transport + needs_utilities
    + needs_insurance + needs_debt in
  let total_expenses_monthly := total_needs + wants_misc in
  let savings_monthly_derived := net_income_monthly - total_expenses_monthly in
  q <- Py.truediv total_needs net_income_monthly ;;
  let actual_needs_pct := q * 100 in
  q <- Py.truediv wants_misc net_income_monthly ;;
  let actual_wants_pct := q * 100 in
  q <- Py.truediv savings_monthly_derived net_income_monthly ;;
  let actual_savings_pct := q * 100 in
  q <- Py.truediv needs_debt net_income_monthly ;;
  let dsr_pct := q * 100 in
  (* 2. Survival Ratio & DSR status *)
  survival_ratio <-
    (if Py.ltb 0 total_expenses_monthly
     then q <- Py.truediv net_income_monthly total_expenses_monthly ;;
          Py.ret (Py.Fin q)
     else Py.ret Py.PosInf) ;;
  let dsr_status :=
    (if Py.leb dsr_pct 15 then "Excellent"
     else if Py.leb dsr_pct 40 then "Good"
     else if Py.leb dsr_pct 50 then "Warning"
     else "Critical")%string in
  let survival_status :=
    (if Py.float_ltb survival_ratio 1.0 then "Critical"
     else if Py.float_ltb survival_ratio 3.0 then "Warning"
     else "Excellent")%string in
  (* 3. Health Score (0-100) *)
  needs_penalty_ratio <- Py.truediv (actual_needs_pct - 50) 25 ;;
  let needs_score_raw := 20 * (1 - needs_penalty_ratio) in
  let needs_score := Py.max 0.0 (Py.min 20.0 needs_score_raw) in
  wants_penalty_ratio <- Py.truediv (actual_wants_pct - 30) 20 ;;
  let wants_score_raw := 20 * (1 - wants_penalty_ratio) in
  let wants_score := Py.max 0.0 (Py.min 20.0 wants_score_raw) in
  q <- Py.truediv actual_savings_pct 20 ;;
  let savings_score_raw := 35 * q in
  let savings_score := Py.max 0.0 (Py.min 35.0 savings_score_raw) in
  q <- Py.truediv dsr_pct 40 ;;
  let debt_score_raw := 25 * (1 - q) in
  let debt_score := Py.max 0.0 (Py.min 25.0 debt_score_raw) in
  let health_score := needs_score + wants_score + savings_score + debt_score in
  (* 4. Overspent Check & Culprit *)
  let needs_surplus_amount :=
    Py.max 0.0 (total_needs - 0.50 * net_income_monthly) in
  let wants_surplus_amount :=
    Py.max 0.0 (wants_misc - 0.30 * net_income_monthly) in
  let needs_items : Py.dict :=
    [ ("food", needs_food);
      ("housing", needs_housing);
      ("transport", needs_transport);
      ("utilities", needs_utilities);
      ("insurance", needs_insurance);
      ("debt", needs_debt) ]%string in
  '(culprit_item, culprit_amount) <-
    (if Py.ltb 0 total_needs
     then culprit_item <- Py.max_key needs_items ;;
          culprit_amount <- Py.subscript needs_items culprit_item ;;
          Py.ret (Some culprit_item, culprit_amount)
     else Py.ret (None, 0.0)) ;;
  (* 5. Insight Text Generation *)
  let insights : list string := [] in
  let insights :=
    if Py.float_leb survival_ratio 1.0
    then insights ++ [crisis_sentence] else insights in
  let insights :=
    if existsb (String.eqb dsr_status) ["Warning"; "Critical"]%string
    then insights ++ [debt_sentence dsr_status dsr_pct] else insights in
  let insights :=
    if Py.ltb 0 needs_surplus_amount
    then
      let msg := needs_sentence needs_surplus_amount in
      let msg :=
        match culprit_item with
        | Some item => (msg ++ culprit_clause item culprit_amount)%string
        | None => msg
        end in
      insights ++ [msg]
    else insights in
  let insights :=
    if Py.ltb 0 wants_surplus_amount
    then insights ++ [wants_sentence wants_surplus_amount] else insights in
  let insights :=
    match insights with
    | [] => insights ++ [positive_sentence]
    | _ :: _ => insights
    end in
  let weakness_insight_text := Py.join " "%string insights in
  Py.ret {|
    Locals.total_needs := total_needs;
    Locals.total_expenses_monthly := total_expenses_monthly;
    Locals.savings_monthly_derived := savings_monthly_derived;
    Locals.actual_needs_pct := actual_needs_pct;
    Locals.actual_wants_pct := actual_wants_pct;
    Locals.actual_savings_pct := actual_savings_pct;
    Locals.dsr_pct := dsr_pct;
    Locals.survival_ratio := survival_ratio;
    Locals.dsr_status := dsr_status;
    Locals.survival_status := survival_status;
    Locals.needs_score := needs_score;
    Locals.wants_score := wants_score;
    Locals.savings_score := savings_score;
    Locals.debt_score := debt_score;
    Locals.health_score := health_score;
    Locals.needs_surplus_amount := needs_surplus_amount;
    Locals.wants_surplus_amount := wants_surplus_amount;
    Locals.needs_items := needs_items;
    Locals.culprit_item := culprit_item;
    Locals.culprit_amount := culprit_amount;
    Locals.insights := insights;
    Locals.weakness_insight_text := weakness_insight_text
  |}.

(** Section 6, the [return] statement: the dictionary built from the
    locals. *)
Definition return_dict (l : Locals.t) : result := {|
  health_score := Py.round (Locals.health_score l) 2;
  actual_needs_pct := Py.round (Locals.actual_needs_pct l) 2;
  actual_wants_pct := Py.round (Locals.actual_wants_pct l) 2;
  actual_savings_pct := Py.round (Locals.actual_savings_pct l) 2;
  dsr_pct := Py.round (Locals.dsr_pct l) 2;
  dsr_status := Locals.dsr_status l;
  survival_ratio :=
    if Py.is_not_inf (Locals.survival_ratio l)
    then Py.float_round (Locals.survival_ratio l) 2
    else Py.PosInf;
  survival_status := Locals.survival_status l;
  weakness_insight_text := Locals.weakness_insight_text l;
  culprit_item := Locals.culprit_item l;
  culprit_amount := Py.round (Locals.culprit_amount l) 2;
  needs_surplus_amount := Py.round (Locals.needs_surplus_amount l) 2;
  wants_surplus_amount := Py.round (Locals.wants_surplus_amount l) 2
|}.

Definition analyze_nic_data (self : FinancialHealthAnalyzer)
  (net_income_monthly needs_food needs_housing needs_transport
   needs_utilities needs_insurance needs_debt wants_misc : Q)
  : Py.M result :=
  l <- analyze_nic_data_locals self net_income_monthly needs_food
         needs_housing needs_transport needs_utilities needs_insurance
         needs_debt wants_misc ;;
  Py.ret (return_dict l).

(** The keyword arguments of a call: the [params] dictionary that
    [generate_dashboard_data] receives, one field per key. *)
Record params : Type := {
  net_income_monthly : Q;
  needs_food : Q;
  needs_housing : Q;
  needs_transport : Q;
  needs_utilities : Q;
  needs_insurance : Q;
  needs_debt : Q;
  wants_misc : Q
}.

(** [f( **params )] *)
Definition call {A : Type} (f : Q -> Q -> Q -> Q -> Q -> Q -> Q -> Q -> A)
  (p : params) : A :=
  f (net_income_monthly p) (needs_food p) (needs_housing p)
    (needs_transport p) (needs_utilities p) (needs_insurance p)
    (needs_debt p) (wants_misc p).

(** Step 1 of [generate_dashboard_data]: a fresh analyzer is created and
    called on the parameters. *)
Definition generate_dashboard_numbers (p : params) : Py.M result :=
  let analyzer := {| attributes := [] |} in
  call (analyze_nic_data analyzer) p.

(** ** [generate_dashboard_data] and the client it imports

    [llm_client] is not among the sources.  Its two names are parameters of
    the model, and nothing is assumed about them: each may read and change a
    state of its own ([world]), and either return or raise an exception of
    its own ([error]).  [USER_PROMPT_TEMPLATE.format] receives the entries of
    [numbers] as keyword arguments, a copy, and [call_typhoon] receives the
    prompt only, so neither can change [numbers]. *)

Module Dashboard.

(** The uses of [llm_client], in the order they happen. *)
Inductive event : Type :=
| Format (numbers : result)
| Typhoon (user_prompt : string).

(** What [generate_dashboard_data] can raise. *)
Inductive raised (error : Type) : Type :=
| Analyzer (e : Py.exn)
| Client (e : error).

Arguments Analyzer {error} e.
Arguments Client {error} e.

(** The dictionary [{"numbers": numbers, "panels": panels}]. *)
Record t (panels_t : Type) : Type := {
  numbers : result;
  panels : panels_t
}.

Arguments numbers {panels_t} _.
Arguments panels {panels_t} _.

End Dashboard.

Section Generate_dashboard_data.

Variables world error panels_t : Type.
Variable USER_PROMPT_TEMPLATE_format :
  result -> world -> (error + string) * world.
Variable call_typhoon : string -> world -> (error + panels_t) * world.

Definition generate_dashboard_data (p : params) (w : world)
  : (Dashboard.raised error + Dashboard.t panels_t)
    * list Dashboard.event * world :=
  match Py.outcome (generate_dashboard_numbers p) with
  | inl e => (inl (Dashboard.Analyzer e), [], w)
  | inr numbers =>
    let (formatted, w1) := USER_PROMPT_TEMPLATE_format numbers w in
    match formatted with
    | inl e => (inl (Dashboard.Client e), [Dashboard.Format numbers], w1)
    | inr user_prompt =>
      let (answer, w2) := call_typhoon user_prompt w1 in
      let events :=
        [Dashboard.Format numbers; Dashboard.Typhoon user_prompt] in
      match answer with
      | inl e => (inl (Dashboard.Client e), events, w2)
      | inr panels =>
        (inr {| Dashboard.numbers := numbers; Dashboard.panels := panels |},
         events, w2)
      end
    end
  end.

End Generate_dashboard_data.

(** ** The method as a program on the object store

    The embedding above takes the method as a function of its eight numbers.
    Here the same body is written against the store of the Python process,
    so that what a call does to the objects that exist when it starts is part
    of the model: the receiver [self] is a reference into the store, the
    dictionary display and the list display allocate new objects,
    [insights.append] changes the list object in place, and the [return]
    statement allocates the dictionary handed back.  Numbers, strings and
    [None] are immutable and are kept as values. *)

Module Store.

(** A reference: the position of the object in the store. *)
Definition addr : Type := nat.

(** The objects of the program: instances of the class with what callers
    stored on them, dictionaries of numbers (the [params] of a caller,
    [needs_items]), lists of strings ([insights]) and the dictionaries the
    method returns. *)
Inductive object : Type :=
| InstanceObject (self : FinancialHealthAnalyzer)
| DictObject (items : Py.dict)
| ListObject (items : list string)
| ResultObject (fields : result).

Definition t : Type := list object.

Definition read (h : t) (a : addr) : option object := nth_error h a.

(** The store with the object at [a] replaced. *)
Fixpoint write (h : t) (a : addr) (o : object) : t :=
  match h, a with
  | [], _ => []
  | _ :: rest, O => o :: rest
  | x :: rest, S a' => x :: write rest a' o
  end.

(** What a computation on the store can raise: an exception of the
    embedding above, or the [AttributeError] or [TypeError] of an operation
    applied to a reference that does not hold the kind of object it needs. *)
Inductive exn : Type :=
| Python (e : Py.exn)
| WrongKind (a : addr).

(** A computation on the store: from the store it starts in, its outcome,
    the divisors it evaluated and the store it leaves. *)
Definition M (A : Type) : Type := t -> ((exn + A) * list Q) * t.

Definition ret {A : Type} (a : A) : M A := fun h => ((inr a, []), h).

(** [x], evaluated after the divisions by [d]. *)
Definition after {A : Type} (d : list Q) (x : ((exn + A) * list Q) * t)
  : ((exn + A) * list Q) * t :=
  match x with ((r, d'), h) => ((r, d ++ d'), h) end.

Definition bind {A B : Type} (m : M A) (k : A -> M B) : M B :=
  fun h =>
    match m h with
    | ((inl e, d), h') => ((inl e, d), h')
    | ((inr a, d), h') => after d (k a h')
    end.

(** A computation of the embedding above, which leaves the store alone. *)
Definition lift {A : Type} (m : Py.M A) : M A :=
  fun h =>
    match m with
    | (inl e, d) => ((inl (Python e), d), h)
    | (inr a, d) => ((inr a, d), h)
    end.

(** A display ([{...}], [[]]): a new object, at a reference not in use. *)
Definition new (o : object) : M addr :=
  fun h => ((inr (length h), []), h ++ [o]).

(** The entries of the dictionary at [a]. *)
Definition dict_items (a : addr) : M Py.dict :=
  fun h =>
    match read h a with
    | Some (DictObject d) => ((inr d, []), h)
    | _ => ((inl (WrongKind a), []), h)
    end.

(** The elements of the list at [a]. *)
Definition list_items (a : addr) : M (list string) :=
  fun h =>
    match read h a with
    | Some (ListObject l) => ((inr l, []), h)
    | _ => ((inl (WrongKind a), []), h)
    end.

(** [a.append(s)]: the list object at [a] gets one more element. *)
Definition append (a : addr) (s : string) : M unit :=
  fun h =>
    match read h a with
    | Some (ListObject l) => ((inr tt, []), write h a (ListObject (l ++ [s])))
    | _ => ((inl (WrongKind a), []), h)
    end.

(** What a run leaves: the divisors it evaluated, the store, and what its
    caller is handed, the exception or the reference returned. *)
Definition divisors {A : Type} (x : ((exn + A) * list Q) * t) : list Q :=
  snd (fst x).
Definition final {A : Type} (x : ((exn + A) * list Q) * t) : t := snd x.
Definition returned {A : Type} (x : ((exn + A) * list Q) * t) : exn + A :=
  fst (fst x).

(** The outcome of a run that returns a reference, as its caller sees it:
    the exception, or the object found at the reference. *)
Definition outcome (x : ((exn + addr) * list Q) * t) : exn + option object :=
  match returned x with
  | inl e => inl e
  | inr a => inr (read (final x) a)
  end.

(** Every object of [h] is in [h'], at the same reference and with the same
    content. *)
Definition preserved (h h' : t) : Prop :=
  forall (a : addr) (o : object), read h a = Some o -> read h' a = Some o.

End Store.

Declare Scope store_scope.
Delimit Scope store_scope with store.
Notation "x <- m ;; k" := (Store.bind m (fun x => k))
  (at level 61, m at next level, right associativity) : store_scope.
Notation "' pat <- m ;; k" :=
  (Store.bind m (fun x => match x with pat => k end))
  (at level 61, pat pattern, m at next level, right associativity)
  : store_scope.

Module Stateful.

(** [analyze_nic_data], statement by statement, on the store.  It returns
    the reference of the dictionary it built. *)
Definition analyze_nic_data (self : Store.addr)
  (net_income_monthly needs_food needs_housing needs_transport
   needs_utilities needs_insurance needs_debt wants_misc : Q)
  : Store.M Store.addr :=
  (* ---- Safety check ---- *)
  if Py.leb net_income_monthly 0
  then Store.lift
         (Py.raise (Py.ValueError "net_income_monthly ต้องมากกว่า 0"%string))
  else
  (* 1. Basic Calculations *)
  let total_needs :=
    needs_food + needs_housing + needs_transport + needs_utilities
    + needs_insurance + needs_debt in
  let total_expenses_monthly := total_needs + wants_misc in
  let savings_monthly_derived := net_income_monthly - total_expenses_monthly in
  (q <- Store.lift (Py.truediv total_needs net_income_monthly) ;;
   let actual_needs_pct := q * 100 in
   q <- Store.lift (Py.truediv wants_misc net_income_monthly) ;;
   let actual_wants_pct := q * 100 in
   q <- Store.lift (Py.truediv savings_monthly_derived net_income_monthly) ;;
   let actual_savings_pct := q * 100 in
   q <- Store.lift (Py.truediv needs_debt net_income_monthly) ;;
   let dsr_pct := q * 100 in
   (* 2. Survival Ratio & DSR status *)
   survival_ratio <-
     (if Py.ltb 0 total_expenses_monthly
      then q <- Store.lift
                  (Py.truediv net_income_monthly total_expenses_monthly) ;;
           Store.ret (Py.Fin q)
      else Store.ret Py.PosInf) ;;
   let dsr_status :=
     (if Py.leb dsr_pct 15 then "Excellent"
      else if Py.leb dsr_pct 40 then "Good"
      else if Py.leb dsr_pct 50 then "Warning"
      else "Critical")%string in
   let survival_status :=
     (if Py.float_ltb survival_ratio 1.0 then "Critical"
      else if Py.float_ltb survival_ratio 3.0 then "Warning"
      else "Excellent")%string in
   (* 3. Health Score (0-100) *)
   needs_penalty_ratio <- Store.lift (Py.truediv (actual_needs_pct - 50) 25) ;;
   let needs_score_raw := 20 * (1 - needs_penalty_ratio) in
   let needs_score := Py.max 0.0 (Py.min 20.0 needs_score_raw) in
   wants_penalty_ratio <- Store.lift (Py.truediv (actual_wants_pct - 30) 20) ;;
   let wants_score_raw := 20 * (1 - wants_penalty_ratio) in
   let wants_score := Py.max 0.0 (Py.min 20.0 wants_score_raw) in
   q <- Store.lift (Py.truediv actual_savings_pct 20) ;;
   let savings_score_raw := 35 * q in
   let savings_score := Py.max 0.0 (Py.min 35.0 savings_score_raw) in
   q <- Store.lift (Py.truediv dsr_pct 40) ;;
   let debt_score_raw := 25 * (1 - q) in
   let debt_score := Py.max 0.0 (Py.min 25.0 debt_score_raw) in
   let health_score :=
     needs_score + wants_score + savings_score + debt_score in
   (* 4. Overspent Check & Culprit *)
   let needs_surplus_amount :=
     Py.max 0.0 (total_needs - 0.50 * net_income_monthly) in
   let wants_surplus_amount :=
     Py.max 0.0 (wants_misc - 0.30 * net_income_monthly) in
   needs_items <-
     Store.new (Store.DictObject
                  [ ("food", needs_food);
                    ("housing", needs_housing);
                    ("transport", needs_transport);
                    ("utilities", needs_utilities);
                    ("insurance", needs_insurance);
                    ("debt", needs_debt) ]%string) ;;
   '(culprit_item, culprit_amount) <-
     (if Py.ltb 0 total_needs
      then d <- Store.dict_items needs_items ;;
           culprit_item <- Store.lift (Py.max_key d) ;;
           d <- Store.dict_items needs_items ;;
           culprit_amount <- Store.lift (Py.subscript d culprit_item) ;;
           Store.ret (Some culprit_item, culprit_amount)
      else Store.ret (None, 0.0)) ;;
   (* 5. Insight Text Generation *)
   insights <- Store.new (Store.ListObject []) ;;
   _ <- (if Py.float_leb survival_ratio 1.0
         then Store.append insights crisis_sentence
         else Store.ret tt) ;;
   _ <- (if existsb (String.eqb dsr_status) ["Warning"; "Critical"]%string
         then Store.append insights (debt_sentence dsr_status dsr_pct)
         else Store.ret tt) ;;
   _ <- (if Py.ltb 0 needs_surplus_amount
         then
           let msg := needs_sentence needs_surplus_amount in
           let msg :=
             match culprit_item with
             | Some item => (msg ++ culprit_clause item culprit_amount)%string
             | None => msg
             end in
           Store.append insights msg
         else Store.ret tt) ;;
   _ <- (if Py.ltb 0 wants_surplus_amount
         then Store.append insights (wants_sentence wants_surplus_amount)
         else Store.ret tt) ;;
   elements <- Store.list_items insights ;;
   _ <- (match elements with
         | [] => Store.append insights positive_sentence
         | _ :: _ => Store.ret tt
         end) ;;
   elements <- Store.list_items insights ;;
   let weakness_insight_text := Py.join " "%string elements in
   (* 6. Return as dict *)
   Store.new (Store.ResultObject {|
     health_score := Py.round health_score 2;
     actual_needs_pct := Py.round actual_needs_pct 2;
     actual_wants_pct := Py.round actual_wants_pct 2;
     actual_savings_pct := Py.round actual_savings_pct 2;
     dsr_pct := Py.round dsr_pct 2;
     dsr_status := dsr_status;
     survival_ratio :=
       if Py.is_not_inf survival_ratio
       then Py.float_round survival_ratio 2
       else Py.PosInf;
     survival_status := survival_status;
     weakness_insight_text := weakness_insight_text;
     culprit_item := culprit_item;
     culprit_amount := Py.round culprit_amount 2;
     needs_surplus_amount := Py.round needs_surplus_amount 2;
     wants_surplus_amount := Py.round wants_surplus_amount 2
   |}))%store.

End Stateful.

(** ** The values of the locals

    What each local variable of [analyze_nic_data] holds once the safety
    check has passed, as a function of the arguments.  Division is the total
    division of [Q] here; [analyze_nic_data_locals_valid] below shows that the
    method computes exactly these values. *)
Module Val.

Definition clamp (hi raw : Q) : Q := Py.max 0.0 (Py.min hi raw).

Definition total_needs (p : params) : Q :=
  needs_food p + needs_housing p + needs_transport p + needs_utilities p
  + needs_insurance p + needs_debt p.

Definition total_expenses_monthly (p : params) : Q :=
  total_needs p + wants_misc p.

Definition savings_monthly_derived (p : params) : Q :=
  net_income_monthly p - total_expenses_monthly p.

Definition actual_needs_pct (p : params) : Q :=
  total_needs p / net_income_monthly p * 100.

Definition actual_wants_pct (p : params) : Q :=
  wants_misc p / net_income_monthly p * 100.

Definition actual_savings_pct (p : params) : Q :=
  savings_monthly_derived p / net_income_monthly p * 100.

Definition dsr_pct (p : params) : Q :=
  needs_debt p / net_income_monthly p * 100.

Definition survival_ratio (p : params) : Py.float :=
  if Py.ltb 0 (total_expenses_monthly p)
  then Py.Fin (net_income_monthly p / total_expenses_monthly p)
  else Py.PosInf.

Definition dsr_status (p : params) : string :=
  (if Py.leb (dsr_pct p) 15 then "Excellent"
   else if Py.leb (dsr_pct p) 40 then "Good"
   else if Py.leb (dsr_pct p) 50 then "Warning"
   else "Critical")%string.

Definition survival_status (p : params) : string :=
  (if Py.float_ltb (survival_ratio p) 1.0 then "Critical"
   else if Py.float_ltb (survival_ratio p) 3.0 then "Warning"
   else "Excellent")%string.

Definition needs_score (p : params) : Q :=
  clamp 20.0 (20 * (1 - (actual_needs_pct p - 50) / 25)).

Definition wants_score (p : params) : Q :=
  clamp 20.0 (20 * (1 - (actual_wants_pct p - 30) / 20)).

Definition savings_score (p : params) : Q :=
  clamp 35.0 (35 * (actual_savings_pct p / 20)).

Definition debt_score (p : params) : Q :=
  clamp 25.0 (25 * (1 - dsr_pct p / 40)).

Definition health_score (p : params) : Q :=
  needs_score p + wants_score p + savings_score p + debt_score p.

Definition needs_surplus_amount (p : params) : Q :=
  Py.max 0.0 (total_needs p - 0.50 * net_income_monthly p).

Definition wants_surplus_amount (p : params) : Q :=
  Py.max 0.0 (wants_misc p - 0.30 * net_income_monthly p).

Definition needs_items (p : params) : Py.dict :=
  [ ("food", needs_food p);
    ("housing", needs_housing p);
    ("transport", needs_transport p);
    ("utilities", needs_utilities p);
    ("insurance", needs_insurance p);
    ("debt", needs_debt p) ]%string.

(** The entry [max(needs_items, key=needs_items.get)] stops at. *)
Definition heaviest (p : params) : string * Q :=
  fold_left Py.max_step (tl (needs_items p)) (("food", needs_food p))%string.

Definition culprit_item (p : params) : option string :=
  if Py.ltb 0 (total_needs p) then Some (fst (heaviest p)) else None.

Definition culprit_amount (p : params) : Q :=
  if Py.ltb 0 (total_needs p) then snd (heaviest p) else 0.0.

Definition needs_message (p : params) : string :=
  match culprit_item p with
  | Some item =>
      (needs_sentence (needs_surplus_amount p)
       ++ culprit_clause item (culprit_amount p))%string
  | None => needs_sentence (needs_surplus_amount p)
  end.

(** The sentences the four rules append, before the fallback. *)
Definition rule_sentences (p : params) : list string :=
  (if Py.float_leb (survival_ratio p) 1.0 then [crisis_sentence] else [])
  ++ (if existsb (String.eqb (dsr_status p)) ["Warning"; "Critical"]%string
      then [debt_sentence (dsr_status p) (dsr_pct p)] else [])
  ++ (if Py.ltb 0 (needs_surplus_amount p) then [needs_message p] else [])
  ++ (if Py.ltb 0 (wants_surplus_amount p)
      then [wants_sentence (wants_surplus_amount p)] else []).

Definition insights (p : params) : list string :=
  match rule_sentences p with
  | [] => [positive_sentence]
  | _ :: _ => rule_sentences p
  end.

Definition weakness_insight_text (p : params) : string :=
  Py.join " "%string (insights p).

Definition locals (p : params) : Locals.t := {|
  Locals.total_needs := total_needs p;
  Locals.total_expenses_monthly := total_expenses_monthly p;
  Locals.savings_monthly_derived := savings_monthly_derived p;
  Locals.actual_needs_pct := actual_needs_pct p;
  Locals.actual_wants_pct := actual_wants_pct p;
  Locals.actual_savings_pct := actual_savings_pct p;
  Locals.dsr_pct := dsr_pct p;
  Locals.survival_ratio := survival_ratio p;
  Locals.dsr_status := dsr_status p;
  Locals.survival_status := survival_status p;
  Locals.needs_score := needs_score p;
  Locals.wants_score := wants_score p;
  Locals.savings_score := savings_score p;
  Locals.debt_score := debt_score p;
  Locals.health_score := health_score p;
  Locals.needs_surplus_amount := needs_surplus_amount p;
  Locals.wants_surplus_amount := wants_surplus_amount p;
  Locals.needs_items := needs_items p;
  Locals.culprit_item := culprit_item p;
  Locals.culprit_amount := culprit_amount p;
  Locals.insights := insights p;
  Locals.weakness_insight_text := weakness_insight_text p
|}.

(** The divisors of the divisions of a call that passes the safety check,
    in evaluation order. *)
Definition divisors (p : params) : list Q :=
  [ net_income_monthly p; net_income_monthly p; net_income_monthly p;
    net_income_monthly p ]
  ++ (if Py.ltb 0 (total_expenses_monthly p)
      then [total_expenses_monthly p] else [])
  ++ [ 25; 20; 20; 40 ].

End Val.

(** ** Inputs used in the statements *)

(** [sample_params] of [playground.py]. *)
Definition sample_params : params := {|
  net_income_monthly := 30000;
  needs_food := 5000;
  needs_housing := 5000;
  needs_transport := 2000;
  needs_utilities := 1000;
  needs_insurance := 1000;
  needs_debt := 1000;
  wants_misc := 9000
|}.

(** The parameters [p] with [needs_debt] replaced and the other seven kept. *)
Definition with_needs_debt (p : params) (debt : Q) : params := {|
  net_income_monthly := net_income_monthly p;
  needs_food := needs_food p;
  needs_housing := needs_housing p;
  needs_transport := needs_transport p;
  needs_utilities := needs_utilities p;
  needs_insurance := needs_insurance p;
  needs_debt := debt;
  wants_misc := wants_misc p
|}.

(** A float is above a number: [x > c], which holds of [float("inf")]. *)
Definition float_gt (x : Py.float) (c : Q) : Prop :=
  match x with Py.Fin q => c < q | Py.PosInf => True end.

(** [entry] is the first entry of [d] whose value is the greatest: every
    entry before it is strictly smaller and none after it is greater. *)
Definition first_greatest (d : Py.dict) (entry : string * Q) : Prop :=
  exists before after : Py.dict,
    d = before ++ entry :: after
    /\ Forall (fun e => snd e < snd entry) before
    /\ Forall (fun e => snd e <= snd entry) after.

(** The same float: two finite floats of equal value, or two infinities. *)
Definition same_float (x y : Py.float) : Prop :=
  match x, y with
  | Py.Fin a, Py.Fin b => a == b
  | Py.PosInf, Py.PosInf => True
  | _, _ => False
  end.

(** An income of 100 and [food] as the only expense. *)
Definition food_only (food : Q) : params := {|
  net_income_monthly := 100;
  needs_food := food;
  needs_housing := 0;
  needs_transport := 0;
  needs_utilities := 0;
  needs_insurance := 0;
  needs_debt := 0;
  wants_misc := 0
|}.

(** An instance of the analyzer on which a caller has stored an attribute. *)
Definition used_analyzer : FinancialHealthAnalyzer :=
  {| attributes := [("calls"%string, 7)] |}.

(** ** Notions used in the further properties *)

(** A call on [p] returns: [l] are the locals at the [return], [r] the
    dictionary returned and [t] the divisors evaluated. *)
Definition returns (self : FinancialHealthAnalyzer) (p : params)
  (l : Locals.t) (r : result) (t : list Q) : Prop :=
  call (analyze_nic_data_locals self) p = (inr l, t)
  /\ call (analyze_nic_data self) p = (inr r, t).

(** [y] is [x] rounded to cents: a whole number of hundredths, at most half a
    hundredth away from [x]. *)
Definition rounded_to_cents (x y : Q) : Prop :=
  (exists n : Z, y == inject_Z n / 100)
  /\ - (1 # 200) <= y - x <= 1 # 200.

(** [q] has the income of [p] and no expense below that of [p]. *)
Definition expenses_le (p q : params) : Prop :=
  net_income_monthly p = net_income_monthly q
  /\ needs_food p <= needs_food q
  /\ needs_housing p <= needs_housing q
  /\ needs_transport p <= needs_transport q
  /\ needs_utilities p <= needs_utilities q
  /\ needs_insurance p <= needs_insurance q
  /\ needs_debt p <= needs_debt q
  /\ wants_misc p <= wants_misc q.

(** The parameters [p] with [net_income_monthly] replaced. *)
Definition with_net_income (p : params) (income : Q) : params := {|
  net_income_monthly := income;
  needs_food := needs_food p;
  needs_housing := needs_housing p;
  needs_transport := needs_transport p;
  needs_utilities := needs_utilities p;
  needs_insurance := needs_insurance p;
  needs_debt := needs_debt p;
  wants_misc := wants_misc p
|}.

(** The parameters [p] with the eight amounts multiplied by [k]. *)
Definition scale (k : Q) (p : params) : params := {|
  net_income_monthly := k * net_income_monthly p;
  needs_food := k * needs_food p;
  needs_housing := k * needs_housing p;
  needs_transport := k * needs_transport p;
  needs_utilities := k * needs_utilities p;
  needs_insurance := k * needs_insurance p;
  needs_debt := k * needs_debt p;
  wants_misc := k * wants_misc p
|}.

(** ** Python primitives: basic facts *)

Lemma ltb_lt (x y : Q) : Py.ltb x y = true <-> x < y.
Proof.
  unfold Py.ltb, Qlt, Qcompare.
  destruct (Qnum x * QDen y ?= Qnum y * QDen x)%Z eqn:E; split; intro H;
    try discriminate; try reflexivity.
  - apply Z.compare_eq in E. lia.
  - apply Z.compare_lt_iff. exact E.
  - apply Z.compare_gt_iff in E. lia.
Qed.

Lemma ltb_ge (x y : Q) : Py.ltb x y = false <-> y <= x.
Proof.
  split; intro H.
  - apply Qnot_lt_le. intro L. apply ltb_lt in L. congruence.
  - destruct (Py.ltb x y) eqn:E; [| reflexivity].
    apply ltb_lt in E. exfalso. exact (Qlt_not_le _ _ E H).
Qed.

Lemma leb_le (x y : Q) : Py.leb x y = true <-> x <= y.
Proof. apply Qle_bool_iff. Qed.

Lemma leb_gt (x y : Q) : Py.leb x y = false <-> y < x.
Proof.
  split; intro H.
  - apply Qnot_le_lt. intro L. apply leb_le in L. congruence.
  - destruct (Py.leb x y) eqn:E; [| reflexivity].
    apply leb_le in E. exfalso. exact (Qlt_not_le _ _ H E).
Qed.

Lemma ltb_spec (x y : Q) : BoolSpec (x < y) (y <= x) (Py.ltb x y).
Proof.
  destruct (Py.ltb x y) eqn:E; constructor.
  - now apply ltb_lt.
  - now apply ltb_ge.
Qed.

Lemma leb_spec (x y : Q) : BoolSpec (x <= y) (y < x) (Py.leb x y).
Proof.
  destruct (Py.leb x y) eqn:E; constructor.
  - now apply leb_le.
  - now apply leb_gt.
Qed.

Lemma truediv_nonzero (a b : Q) :
  ~ b == 0 -> Py.truediv a b = (inr (a / b), [b]).
Proof.
  intro H. unfold Py.truediv.
  destruct (Qeq_bool b 0) eqn:E; [| reflexivity].
  apply Qeq_bool_eq in E. contradiction.
Qed.

Lemma bind_truediv {B : Type} (a b : Q) (k : Q -> Py.M B) :
  ~ b == 0 -> Py.bind (Py.truediv a b) k = Py.after [b] (k (a / b)).
Proof.
  intro H. rewrite (truediv_nonzero a b H). reflexivity.
Qed.

Lemma pos_nonzero (x : Q) : 0 < x -> ~ x == 0.
Proof. intros H E. rewrite E in H. discriminate H. Qed.

(** ** Clamping and division *)

Lemma max_cases (a b : Q) :
  (a < b /\ Py.max a b = b) \/ (b <= a /\ Py.max a b = a).
Proof. unfold Py.max. destruct (ltb_spec a b); auto. Qed.

Lemma min_cases (a b : Q) :
  (b < a /\ Py.min a b = b) \/ (a <= b /\ Py.min a b = a).
Proof. unfold Py.min. destruct (ltb_spec b a); auto. Qed.

Ltac clamp_cases :=
  unfold Val.clamp;
  repeat match goal with
  | |- context [Py.min ?a ?b] =>
      let H := fresh "H" in let E := fresh "E" in
      destruct (min_cases a b) as [[H E] | [H E]]; rewrite E in *; clear E
  end;
  repeat match goal with
  | |- context [Py.max ?a ?b] =>
      let H := fresh "H" in let E := fresh "E" in
      destruct (max_cases a b) as [[H E] | [H E]]; rewrite E in *; clear E
  end.

Lemma clamp_range (hi raw : Q) : 0 <= hi -> 0 <= Val.clamp hi raw <= hi.
Proof. intro H. clamp_cases; lra. Qed.

Lemma clamp_mono (hi raw1 raw2 : Q) :
  raw1 <= raw2 -> Val.clamp hi raw1 <= Val.clamp hi raw2.
Proof. intro H. clamp_cases; lra. Qed.

Lemma div_le_mono (a b c : Q) : 0 < c -> a <= b -> a / c <= b / c.
Proof.
  intros Hc H. unfold Qdiv. apply Qmult_le_compat_r; [exact H |].
  apply Qlt_le_weak, Qinv_lt_0_compat, Hc.
Qed.

Lemma div_lt_mono (a b c : Q) : 0 < c -> a < b -> a / c < b / c.
Proof.
  intros Hc H. unfold Qdiv. apply Qmult_lt_compat_r; [| exact H].
  apply Qinv_lt_0_compat, Hc.
Qed.

(** ** Rounding *)

Lemma round_half_even_floor (q : Q) :
  (Qfloor q <= Py.round_half_even q <= Qfloor q + 1)%Z.
Proof.
  unfold Py.round_half_even.
  destruct (Py.ltb _ _); [lia |].
  destruct (Py.ltb _ _); [lia |].
  destruct (Z.even _); lia.
Qed.

Lemma round_half_even_lower (n : Z) (q : Q) :
  inject_Z n <= q -> (n <= Py.round_half_even q)%Z.
Proof.
  intro H. apply Qfloor_resp_le in H. rewrite Qfloor_Z in H.
  pose proof (round_half_even_floor q). lia.
Qed.

Lemma round_half_even_upper (n : Z) (q : Q) :
  q <= inject_Z n -> (Py.round_half_even q <= n)%Z.
Proof.
  intro H. pose proof (Qfloor_resp_le _ _ H) as F. rewrite Qfloor_Z in F.
  destruct (Z.eq_dec (Qfloor q) n) as [E | NE].
  - unfold Py.round_half_even.
    destruct (ltb_spec (q - inject_Z (Qfloor q)) (1 # 2)) as [_ | L]; [lia |].
    exfalso. rewrite E in L. lra.
  - pose proof (round_half_even_floor q). lia.
Qed.

Lemma round_half_even_mono (x y : Q) :
  x <= y -> (Py.round_half_even x <= Py.round_half_even y)%Z.
Proof.
  intro H. pose proof (Qfloor_resp_le _ _ H) as F.
  pose proof (round_half_even_floor x) as Bx.
  pose proof (round_half_even_floor y) as By.
  destruct (Z.eq_dec (Qfloor x) (Qfloor y)) as [E | NE]; [| lia].
  clear Bx By. unfold Py.round_half_even. rewrite <- E.
  destruct (ltb_spec (x - inject_Z (Qfloor x)) (1 # 2)) as [Lx | Lx].
  - destruct (Py.ltb _ _); [lia |].
    destruct (Py.ltb _ _); [lia |]. destruct (Z.even _); lia.
  - destruct (ltb_spec (y - inject_Z (Qfloor x)) (1 # 2)) as [Ly | Ly];
      [exfalso; lra |].
    destruct (ltb_spec (1 # 2) (x - inject_Z (Qfloor x))) as [Gx | Gx].
    + destruct (ltb_spec (1 # 2) (y - inject_Z (Qfloor x))) as [Gy | Gy];
        [lia | exfalso; lra].
    + destruct (ltb_spec (1 # 2) (y - inject_Z (Qfloor x))) as [Gy | Gy].
      * destruct (Z.even _); lia.
      * lia.
Qed.

Lemma pow10_pos (n : nat) : 0 < inject_Z (Py.pow10 n).
Proof.
  unfold Py.pow10. rewrite <- (Zlt_Qlt 0). apply Z.pow_pos_nonneg; lia.
Qed.

Lemma round_mono (x y : Q) (ndigits : nat) :
  x <= y -> Py.round x ndigits <= Py.round y ndigits.
Proof.
  intro H. unfold Py.round. apply Qred_le.
  pose proof (pow10_pos ndigits) as P.
  apply div_le_mono; [exact P |].
  rewrite <- Zle_Qle. apply round_half_even_mono.
  apply Qmult_le_compat_r; [exact H | lra].
Qed.

Lemma round_half_even_Z (n : Z) : Py.round_half_even (inject_Z n) = n.
Proof.
  apply Z.le_antisymm.
  - apply round_half_even_upper. lra.
  - apply round_half_even_lower. lra.
Qed.

Lemma round_Z (n : Z) (ndigits : nat) :
  Py.round (inject_Z n) ndigits == inject_Z n.
Proof.
  unfold Py.round. rewrite Qred_correct.
  pose proof (pow10_pos ndigits) as P.
  rewrite <- inject_Z_mult, round_half_even_Z, inject_Z_mult.
  field. lra.
Qed.

Lemma round_range (lo hi : Z) (x : Q) (ndigits : nat) :
  inject_Z lo <= x <= inject_Z hi ->
  inject_Z lo <= Py.round x ndigits <= inject_Z hi.
Proof.
  intros [L H]. split.
  - rewrite <- (round_Z lo ndigits). now apply round_mono.
  - rewrite <- (round_Z hi ndigits). now apply round_mono.
Qed.

(** An amount with at most two decimals is its own rounding. *)
Lemma round_hundredths (n : Z) (x : Q) :
  x == inject_Z n / 100 -> Py.round x 2 == x.
Proof.
  intro H. unfold Py.round. rewrite Qred_correct.
  assert (E : x * inject_Z (Py.pow10 2) == inject_Z n)
    by (rewrite H; change (inject_Z (Py.pow10 2)) with 100; field).
  assert (R : Py.round_half_even (x * inject_Z (Py.pow10 2)) = n).
  { unfold Py.round_half_even. rewrite (Qfloor_comp _ _ E), Qfloor_Z.
    destruct (ltb_spec (x * inject_Z (Py.pow10 2) - inject_Z n) (1 # 2))
      as [_ | L]; [reflexivity | exfalso; lra]. }
  rewrite R, H. reflexivity.
Qed.

(** ** The culprit lookup *)

Lemma max_step_fold_in (rest : Py.dict) (first : string * Q) :
  In (fold_left Py.max_step rest first) (first :: rest).
Proof.
  revert first. induction rest as [| item rest IH]; intro first; simpl.
  - now left.
  - destruct (IH (Py.max_step first item)) as [E | I].
    + unfold Py.max_step in E at 1.
      destruct (Py.ltb (snd first) (snd item)); rewrite <- E; auto.
    + auto.
Qed.

Lemma get_in_nodup (d : Py.dict) (k : string) (v : Q) :
  NoDup (map fst d) -> In (k, v) d -> Py.get d k = Some v.
Proof.
  induction d as [| [k' v'] d IH]; intros ND I; simpl in *.
  - contradiction.
  - inversion ND as [| ? ? NI ND']; subst.
    destruct I as [E | I].
    + inversion E; subst. now rewrite String.eqb_refl.
    + destruct (String.eqb_spec k k') as [-> | NE].
      * exfalso. apply NI. apply (in_map fst) in I. exact I.
      * now apply IH.
Qed.

(** On a dictionary with distinct keys, [max] finds a key and the
    subscript that follows finds its value: neither raises. *)
Lemma max_key_subscript (first : string * Q) (rest : Py.dict) :
  NoDup (map fst (first :: rest)) ->
  (item <- Py.max_key (first :: rest) ;;
   amount <- Py.subscript (first :: rest) item ;;
   Py.ret (Some item, amount))
  = Py.ret (Some (fst (fold_left Py.max_step rest first)),
            snd (fold_left Py.max_step rest first)).
Proof.
  intro ND. unfold Py.max_key, Py.ret, Py.bind, Py.after, Py.subscript.
  rewrite (get_in_nodup _ _ (snd (fold_left Py.max_step rest first)) ND).
  - reflexivity.
  - rewrite <- surjective_pairing. apply max_step_fold_in.
Qed.

(** [max] stops at the first entry whose value is the greatest. *)
Lemma fold_max_step_first_greatest (rest before mid : Py.dict)
  (best : string * Q) :
  Forall (fun e => snd e < snd best) before ->
  Forall (fun e => snd e <= snd best) mid ->
  first_greatest (before ++ best :: mid ++ rest)
    (fold_left Py.max_step rest best).
Proof.
  revert before mid best.
  induction rest as [| item rest IH]; intros before mid best Hb Hm; simpl.
  - exists before, mid. rewrite app_nil_r. auto.
  - unfold Py.max_step at 2.
    destruct (ltb_spec (snd best) (snd item)) as [Hlt | Hge].
    + replace (before ++ best :: mid ++ item :: rest)
        with ((before ++ best :: mid) ++ item :: [] ++ rest)
        by (rewrite <- app_assoc; reflexivity).
      apply IH; [| constructor].
      apply Forall_app. split.
      * eapply Forall_impl; [| exact Hb]. cbv beta. intros e He. lra.
      * constructor; [exact Hlt |].
        eapply Forall_impl; [| exact Hm]. cbv beta. intros e He. lra.
    + replace (before ++ best :: mid ++ item :: rest)
        with (before ++ best :: (mid ++ [item]) ++ rest)
        by (rewrite <- app_assoc; reflexivity).
      apply IH; [exact Hb |].
      apply Forall_app. split; [exact Hm | constructor; [exact Hge | constructor]].
Qed.

Lemma heaviest_first_greatest (p : params) :
  first_greatest (Val.needs_items p) (Val.heaviest p).
Proof.
  apply (fold_max_step_first_greatest _ [] []); constructor.
Qed.

(** ** Symbolic execution of the method *)

(** A call that passes the safety check runs to its [return] statement with
    the locals of [Val] and performs the divisions of [Val.divisors]. *)
Lemma analyze_nic_data_locals_valid (self : FinancialHealthAnalyzer)
  (p : params) :
  0 < net_income_monthly p ->
  call (analyze_nic_data_locals self) p = (inr (Val.locals p), Val.divisors p).
Proof.
  intro Hpos. pose proof (pos_nonzero _ Hpos) as Hnz.
  unfold call, analyze_nic_data_locals.
  destruct (leb_spec (net_income_monthly p) 0) as [Hle | _];
    [exfalso; exact (Qlt_not_le _ _ Hpos Hle) |].
  cbv zeta.
  rewrite !(bind_truediv _ (net_income_monthly p)) by exact Hnz.
  rewrite max_key_subscript
    by (repeat constructor; simpl; intuition discriminate).
  cbv [Val.locals Val.divisors Val.survival_ratio Val.survival_status
       Val.culprit_item Val.culprit_amount Val.heaviest Val.insights
       Val.weakness_insight_text Val.rule_sentences Val.needs_message
       Val.total_expenses_monthly Val.total_needs Val.dsr_status Val.dsr_pct
       Val.needs_surplus_amount Val.wants_surplus_amount Val.needs_items tl
       Val.needs_score Val.wants_score Val.savings_score Val.debt_score
       Val.health_score Val.clamp Val.actual_needs_pct Val.actual_wants_pct
       Val.actual_savings_pct Val.savings_monthly_derived].
  destruct (ltb_spec 0 (needs_food p + needs_housing p + needs_transport p
                        + needs_utilities p + needs_insurance p
                        + needs_debt p + wants_misc p)) as [Hte | Hte];
    [rewrite bind_truediv by exact (pos_nonzero _ Hte) |];
    destruct (Py.ltb 0 (needs_food p + needs_housing p + needs_transport p
                        + needs_utilities p + needs_insurance p
                        + needs_debt p));
    cbv [Py.after Py.bind Py.ret Py.truediv];
    change (Qeq_bool 25 0) with false; change (Qeq_bool 20 0) with false;
    change (Qeq_bool 40 0) with false; cbv beta iota;
    destruct (Py.float_leb _ _);
    destruct (existsb _ _);
    destruct (Py.ltb 0 (Py.max 0.0 (_ - 0.50 * _)));
    destruct (Py.ltb 0 (Py.max 0.0 (_ - 0.30 * _)));
    cbn [app]; reflexivity.
Qed.

Lemma analyze_nic_data_valid (self : FinancialHealthAnalyzer) (p : params) :
  0 < net_income_monthly p ->
  call (analyze_nic_data self) p
  = (inr (return_dict (Val.locals p)), Val.divisors p).
Proof.
  intro Hpos. unfold call, analyze_nic_data.
  change (analyze_nic_data_locals self (net_income_monthly p) (needs_food p)
            (needs_housing p) (needs_transport p) (needs_utilities p)
            (needs_insurance p) (needs_debt p) (wants_misc p))
    with (call (analyze_nic_data_locals self) p).
  rewrite (analyze_nic_data_locals_valid self p Hpos).
  unfold Py.bind, Py.after, Py.ret. now rewrite app_nil_r.
Qed.

(** A call that fails the safety check raises at once: no division has been
    evaluated. *)
Lemma analyze_nic_data_locals_invalid (self : FinancialHealthAnalyzer)
  (p : params) :
  net_income_monthly p <= 0 ->
  call (analyze_nic_data_locals self) p
  = (inl (Py.ValueError "net_income_monthly ต้องมากกว่า 0"), []).
Proof.
  intro Hle. unfold call, analyze_nic_data_locals.
  destruct (leb_spec (net_income_monthly p) 0) as [_ | Hgt];
    [reflexivity | exfalso; exact (Qlt_not_le _ _ Hgt Hle)].
Qed.

Lemma analyze_nic_data_invalid (self : FinancialHealthAnalyzer) (p : params) :
  net_income_monthly p <= 0 ->
  call (analyze_nic_data self) p
  = (inl (Py.ValueError "net_income_monthly ต้องมากกว่า 0"), []).
Proof.
  intro Hle. unfold call, analyze_nic_data.
  change (analyze_nic_data_locals self (net_income_monthly p) (needs_food p)
            (needs_housing p) (needs_transport p) (needs_utilities p)
            (needs_insurance p) (needs_debt p) (wants_misc p))
    with (call (analyze_nic_data_locals self) p).
  rewrite (analyze_nic_data_locals_invalid self p Hle). reflexivity.
Qed.

(** ** The divisors of a call *)

Lemma forall_divisors_pos (p : params) :
  0 < net_income_monthly p -> Forall (fun d => 0 < d) (Val.divisors p).
Proof.
  intro Hpos. unfold Val.divisors.
  repeat (apply Forall_cons; [exact Hpos |]).
  apply Forall_app. split.
  - destruct (ltb_spec 0 (Val.total_expenses_monthly p)); auto.
  - repeat (apply Forall_cons; [reflexivity |]). constructor.
Qed.

(** ** The insight text *)

Lemma join_head (sep : string) (c : ascii) (s : string) (rest : list string) :
  exists tail : string, Py.join sep (String c s :: rest) = String c tail.
Proof.
  unfold Py.join. destruct rest as [| s' rest]; simpl; eexists; reflexivity.
Qed.

Lemma needs_message_head (p : params) :
  exists (c : ascii) (s : string), Val.needs_message p = String c s.
Proof.
  unfold Val.needs_message, needs_sentence.
  destruct (Val.culprit_item p); cbn [String.append]; eexists; eexists;
    reflexivity.
Qed.

Lemma insights_head (p : params) :
  exists (c : ascii) (s : string) (rest : list string),
    Val.insights p = String c s :: rest.
Proof.
  destruct (needs_message_head p) as (c & s & Hn).
  unfold Val.insights, Val.rule_sentences.
  destruct (Py.float_leb _ _);
    [cbn [app]; unfold crisis_sentence; cbn [String.append];
     do 3 eexists; reflexivity |].
  destruct (existsb _ _);
    [cbn [app]; unfold debt_sentence; cbn [String.append];
     do 3 eexists; reflexivity |].
  destruct (Py.ltb 0 (Val.needs_surplus_amount p));
    [cbn [app]; rewrite Hn; do 3 eexists; reflexivity |].
  destruct (Py.ltb 0 (Val.wants_surplus_amount p));
    cbn [app]; [unfold wants_sentence | unfold positive_sentence];
    cbn [String.append]; do 3 eexists; reflexivity.
Qed.

Lemma weakness_insight_text_nonempty (p : params) :
  Val.weakness_insight_text p <> ""%string.
Proof.
  unfold Val.weakness_insight_text.
  destruct (insights_head p) as (c & s & rest & ->).
  destruct (join_head " " c s rest) as [tail ->]. discriminate.
Qed.

Lemma float_gt_not_leb (x : Py.float) (c : Q) :
  float_gt x c -> Py.float_leb x c = false.
Proof.
  destruct x as [q |]; simpl; [| reflexivity]. intro H. now apply leb_gt.
Qed.

(** A ratio whose rounding is above 1.0 is above 1.0. *)
Lemma float_gt_round (x : Py.float) :
  float_gt (if Py.is_not_inf x then Py.float_round x 2 else Py.PosInf) 1.0 ->
  float_gt x 1.0.
Proof.
  destruct x as [q |]; simpl; [| trivial]. intro H.
  destruct (Qlt_le_dec 1.0 q) as [Hgt | Hle]; [exact Hgt | exfalso].
  pose proof (round_mono q 1.0 2 Hle) as R.
  assert (E : Py.round 1.0 2 == 1) by reflexivity.
  lra.
Qed.

Lemma no_rule_fires (p : params) :
  float_gt (Val.survival_ratio p) 1.0 ->
  Val.dsr_status p = "Excellent"%string \/ Val.dsr_status p = "Good"%string ->
  Val.needs_surplus_amount p == 0 ->
  Val.wants_surplus_amount p == 0 ->
  Val.rule_sentences p = [].
Proof.
  intros Hs Hd Hn Hw. unfold Val.rule_sentences.
  rewrite (float_gt_not_leb _ _ Hs).
  assert (Ed : existsb (String.eqb (Val.dsr_status p))
                 ["Warning"; "Critical"]%string = false)
    by (destruct Hd as [-> | ->]; reflexivity).
  rewrite Ed.
  assert (En : Py.ltb 0 (Val.needs_surplus_amount p) = false)
    by (apply ltb_ge; lra).
  assert (Ew : Py.ltb 0 (Val.wants_surplus_amount p) = false)
    by (apply ltb_ge; lra).
  rewrite En, Ew. reflexivity.
Qed.

(** ** Monotonicity in [needs_debt] *)

(** Division by one of the constants of the scoring rules, as a
  multiplication. *)
Ltac div_consts :=
repeat match goal with
| |- context [?x / 40] => change (x / 40) with (x * (1 # 40))
| |- context [?x / 25] => change (x / 25) with (x * (1 # 25))
| |- context [?x / 20] => change (x / 20) with (x * (1 # 20))
end.

Section Needs_debt.

Variable p : params.
Variables d1 d2 : Q.
Hypothesis Hpos : 0 < net_income_monthly p.
Hypothesis Hlt : d1 < d2.

Local Abbreviation p1 := (with_needs_debt p d1).
Local Abbreviation p2 := (with_needs_debt p d2).

Lemma dsr_pct_increases : Val.dsr_pct p1 < Val.dsr_pct p2.
Proof.
  unfold Val.dsr_pct. cbn [with_needs_debt needs_debt net_income_monthly].
  pose proof (div_lt_mono d1 d2 (net_income_monthly p) Hpos Hlt) as H.
  set (x := d1 / net_income_monthly p) in *.
  set (y := d2 / net_income_monthly p) in *. lra.
Qed.

Lemma actual_needs_pct_increases :
  Val.actual_needs_pct p1 < Val.actual_needs_pct p2.
Proof.
  unfold Val.actual_needs_pct, Val.total_needs.
  cbn [with_needs_debt needs_debt net_income_monthly needs_food
       needs_housing needs_transport needs_utilities needs_insurance].
  match goal with
  | |- ?a / _ * _ < ?b / _ * _ =>
      assert (Hab : a < b) by lra;
      pose proof (div_lt_mono a b (net_income_monthly p) Hpos Hab) as H;
      set (x := a / net_income_monthly p) in *;
      set (y := b / net_income_monthly p) in *
  end.
  lra.
Qed.

Lemma actual_savings_pct_decreases :
  Val.actual_savings_pct p2 < Val.actual_savings_pct p1.
Proof.
  unfold Val.actual_savings_pct, Val.savings_monthly_derived,
    Val.total_expenses_monthly, Val.total_needs.
  cbn [with_needs_debt needs_debt net_income_monthly needs_food
       needs_housing needs_transport needs_utilities needs_insurance
       wants_misc].
  match goal with
  | |- ?a / _ * _ < ?b / _ * _ =>
      assert (Hab : a < b) by lra;
      pose proof (div_lt_mono a b (net_income_monthly p) Hpos Hab) as H;
      set (x := a / net_income_monthly p) in *;
      set (y := b / net_income_monthly p) in *
  end.
  lra.
Qed.

Lemma debt_score_non_increasing : Val.debt_score p2 <= Val.debt_score p1.
Proof.
  unfold Val.debt_score. apply clamp_mono. div_consts.
  pose proof dsr_pct_increases. lra.
Qed.

Lemma debt_score_decreases :
  0 <= d1 \/ Val.debt_score p1 < 25 ->
  0 < Val.debt_score p1 -> Val.debt_score p2 < Val.debt_score p1.
Proof.
  pose proof dsr_pct_increases as Hd.
  assert (H0 : 0 <= d1 -> 0 <= Val.dsr_pct p1).
  { intro H. unfold Val.dsr_pct.
    cbn [with_needs_debt needs_debt net_income_monthly].
    pose proof (div_le_mono 0 d1 (net_income_monthly p) Hpos H) as H'.
    assert (E : 0 / net_income_monthly p == 0)
      by (field; now apply pos_nonzero).
    rewrite E in H'.
    set (x := d1 / net_income_monthly p) in *. lra. }
  unfold Val.debt_score. div_consts.
  clamp_cases; intros [Hc | Hc] Hs; try specialize (H0 Hc); lra.
Qed.

Lemma needs_score_non_increasing : Val.needs_score p2 <= Val.needs_score p1.
Proof.
  unfold Val.needs_score. apply clamp_mono. div_consts.
  pose proof actual_needs_pct_increases. lra.
Qed.

Lemma savings_score_non_increasing :
  Val.savings_score p2 <= Val.savings_score p1.
Proof.
  unfold Val.savings_score. apply clamp_mono. div_consts.
  pose proof actual_savings_pct_decreases. lra.
Qed.

Lemma wants_score_unchanged : Val.wants_score p2 = Val.wants_score p1.
Proof. reflexivity. Qed.

Lemma health_score_non_increasing :
  Val.health_score p2 <= Val.health_score p1.
Proof.
  unfold Val.health_score. rewrite wants_score_unchanged.
  pose proof debt_score_non_increasing.
  pose proof needs_score_non_increasing.
  pose proof savings_score_non_increasing. lra.
Qed.

End Needs_debt.

(** ** Equal numbers

    The operations on numbers do not tell two fractions of the same value
    apart. *)

#[export] Instance ltb_comp : Proper (Qeq ==> Qeq ==> eq) Py.ltb.
Proof. intros a b H c d H'. unfold Py.ltb. now rewrite H, H'. Qed.

#[export] Instance leb_comp : Proper (Qeq ==> Qeq ==> eq) Py.leb.
Proof. intros a b H c d H'. unfold Py.leb. now rewrite H, H'. Qed.

#[export] Instance max_comp : Proper (Qeq ==> Qeq ==> Qeq) Py.max.
Proof.
  intros a b H c d H'. unfold Py.max. rewrite H, H'.
  destruct (Py.ltb b d); assumption.
Qed.

#[export] Instance min_comp : Proper (Qeq ==> Qeq ==> Qeq) Py.min.
Proof.
  intros a b H c d H'. unfold Py.min. rewrite H, H'.
  destruct (Py.ltb d b); assumption.
Qed.

#[export] Instance round_half_even_comp :
  Proper (Qeq ==> eq) Py.round_half_even.
Proof.
  intros a b H. unfold Py.round_half_even. cbv zeta.
  rewrite (Qfloor_comp _ _ H).
  rewrite (ltb_comp (a - inject_Z (Qfloor b)) (b - inject_Z (Qfloor b))
             ltac:(now rewrite H) (1 # 2) (1 # 2) ltac:(reflexivity)).
  rewrite (ltb_comp (1 # 2) (1 # 2) ltac:(reflexivity)
             (a - inject_Z (Qfloor b)) (b - inject_Z (Qfloor b))
             ltac:(now rewrite H)).
  reflexivity.
Qed.

#[export] Instance round_comp : Proper (Qeq ==> eq ==> eq) Py.round.
Proof.
  intros a b H n m <-. unfold Py.round. apply Qred_complete. now rewrite H.
Qed.

#[export] Instance clamp_comp : Proper (Qeq ==> Qeq ==> Qeq) Val.clamp.
Proof. intros a b H c d H'. unfold Val.clamp. now rewrite H, H'. Qed.

#[export] Instance float_ltb_comp :
  Proper (same_float ==> Qeq ==> eq) Py.float_ltb.
Proof.
  intros [a |] [b |] H c d H'; simpl in *; try contradiction;
    [now rewrite H, H' | reflexivity].
Qed.

#[export] Instance float_leb_comp :
  Proper (same_float ==> Qeq ==> eq) Py.float_leb.
Proof.
  intros [a |] [b |] H c d H'; simpl in *; try contradiction;
    [now rewrite H, H' | reflexivity].
Qed.

Lemma append_empty_r (s : string) : (s ++ "")%string = s.
Proof. induction s as [| c s IH]; simpl; [reflexivity | now rewrite IH]. Qed.

Lemma join_prefix (sep s : string) (rest : list string) :
  exists tail : string, Py.join sep (s :: rest) = (s ++ tail)%string.
Proof.
  unfold Py.join. destruct rest as [| s' rest]; simpl.
  - exists ""%string. symmetry. apply append_empty_r.
  - eexists. reflexivity.
Qed.

(** ** The store *)

Lemma read_new (h : Store.t) (o : Store.object) :
  Store.read (h ++ [o]) (length h) = Some o.
Proof.
  unfold Store.read. rewrite nth_error_app2 by lia.
  now rewrite Nat.sub_diag.
Qed.

Lemma read_fresh (h : Store.t) : Store.read h (length h) = None.
Proof. unfold Store.read. apply nth_error_None. lia. Qed.

Lemma write_new (h : Store.t) (o o' : Store.object) :
  Store.write (h ++ [o]) (length h) o' = h ++ [o'].
Proof. induction h as [| x h IH]; simpl; [reflexivity | now rewrite IH]. Qed.

Lemma preserved_app (h more : Store.t) : Store.preserved h (h ++ more).
Proof.
  intros a o H. unfold Store.read in *. rewrite nth_error_app1; [exact H |].
  apply nth_error_Some. rewrite H. discriminate.
Qed.

Lemma store_after_nil {A : Type}
  (x : ((Store.exn + A) * list Q) * Store.t) : Store.after [] x = x.
Proof. destruct x as [[r d] h]. reflexivity. Qed.

Lemma store_bind_ret {A B : Type} (a : A) (k : A -> Store.M B)
  (h : Store.t) :
  Store.bind (Store.ret a) k h = k a h.
Proof. unfold Store.bind, Store.ret. apply store_after_nil. Qed.

Lemma store_bind_truediv {B : Type} (a b : Q) (k : Q -> Store.M B)
  (h : Store.t) :
  ~ b == 0 ->
  Store.bind (Store.lift (Py.truediv a b)) k h = Store.after [b] (k (a / b) h).
Proof.
  intro Hb. unfold Store.bind, Store.lift.
  now rewrite (truediv_nonzero a b Hb).
Qed.

Lemma store_bind_new {B : Type} (o : Store.object)
  (k : Store.addr -> Store.M B) (h : Store.t) :
  Store.bind (Store.new o) k h = k (length h) (h ++ [o]).
Proof. unfold Store.bind, Store.new. apply store_after_nil. Qed.

Lemma store_bind_append {B : Type} (l : list string) (s : string)
  (k : unit -> Store.M B) (h : Store.t) :
  Store.bind (Store.append (length h) s) k (h ++ [Store.ListObject l])
  = k tt (h ++ [Store.ListObject (l ++ [s])]).
Proof.
  unfold Store.bind, Store.append. rewrite read_new, write_new.
  apply store_after_nil.
Qed.

Lemma store_bind_list_items {B : Type} (l : list string)
  (k : list string -> Store.M B) (h : Store.t) :
  Store.bind (Store.list_items (length h)) k (h ++ [Store.ListObject l])
  = k l (h ++ [Store.ListObject l]).
Proof.
  unfold Store.bind, Store.list_items. rewrite read_new.
  apply store_after_nil.
Qed.

Lemma store_bind_dict_items {B : Type} (d : Py.dict)
  (k : Py.dict -> Store.M B) (h : Store.t) :
  Store.bind (Store.dict_items (length h)) k (h ++ [Store.DictObject d])
  = k d (h ++ [Store.DictObject d]).
Proof.
  unfold Store.bind, Store.dict_items. rewrite read_new.
  apply store_after_nil.
Qed.

(** The culprit lookup on the dictionary just allocated: neither [max] nor
    the subscript raises, and the store is only read. *)
Lemma store_max_key_subscript {B : Type} (first : string * Q)
  (rest : Py.dict) (k : option string * Q -> Store.M B) (h : Store.t) :
  NoDup (map fst (first :: rest)) ->
  Store.bind
    (Store.bind (Store.dict_items (length h)) (fun d =>
     Store.bind (Store.lift (Py.max_key d)) (fun culprit_item =>
     Store.bind (Store.dict_items (length h)) (fun d =>
     Store.bind (Store.lift (Py.subscript d culprit_item))
       (fun culprit_amount =>
     Store.ret (Some culprit_item, culprit_amount))))))
    k (h ++ [Store.DictObject (first :: rest)])
  = k (Some (fst (fold_left Py.max_step rest first)),
       snd (fold_left Py.max_step rest first))
      (h ++ [Store.DictObject (first :: rest)]).
Proof.
  intro ND.
  unfold Store.bind at 1 2. unfold Store.dict_items at 1. rewrite read_new.
  cbv [Store.after]. unfold Store.bind at 1.
  unfold Py.max_key, Py.ret, Store.lift at 1.
  unfold Store.bind at 1. unfold Store.dict_items. rewrite read_new.
  unfold Store.bind, Store.lift, Py.subscript.
  rewrite (get_in_nodup _ _ (snd (fold_left Py.max_step rest first)) ND)
    by (rewrite <- surjective_pairing; apply max_step_fold_in).
  cbv [Py.ret Store.ret Store.after app].
  destruct (k _ _) as [[r d] h']. reflexivity.
Qed.

Lemma read_third (h : Store.t) (o1 o2 o3 : Store.object) :
  Store.read (h ++ [o1; o2; o3]) (length h + 2)%nat = Some o3.
Proof.
  unfold Store.read. rewrite nth_error_app2 by lia.
  replace (length h + 2 - length h)%nat with 2%nat by lia. reflexivity.
Qed.

Lemma read_beyond (h : Store.t) (n : nat) :
  Store.read h (length h + n)%nat = None.
Proof. unfold Store.read. apply nth_error_None. lia. Qed.

(** ** Symbolic execution on the store *)

Lemma store_bind_bind {A B C : Type} (m : Store.M A) (k1 : A -> Store.M B)
  (k2 : B -> Store.M C) (h : Store.t) :
  Store.bind (Store.bind m k1) k2 h
  = Store.bind m (fun a => Store.bind (k1 a) k2) h.
Proof.
  unfold Store.bind. destruct (m h) as [[[e | a] d] h1]; [reflexivity |].
  destruct (k1 a h1) as [[[e | b] d1] h2]; cbn [Store.after];
    [reflexivity |].
  destruct (k2 b h2) as [[r d2] h3]. cbn [Store.after].
  now rewrite app_assoc.
Qed.

(** A call that fails the safety check raises before it allocates. *)
Lemma stateful_invalid (self : Store.addr) (p : params) (h : Store.t) :
  net_income_monthly p <= 0 ->
  call (Stateful.analyze_nic_data self) p h
  = ((inl (Store.Python (Py.ValueError "net_income_monthly ต้องมากกว่า 0")),
      []), h).
Proof.
  intro Hle. unfold call, Stateful.analyze_nic_data.
  destruct (leb_spec (net_income_monthly p) 0) as [_ | Hgt];
    [reflexivity | exfalso; exact (Qlt_not_le _ _ Hgt Hle)].
Qed.

(** A call that passes the safety check allocates three objects after those
    of the store it starts in, [needs_items], [insights] and the dictionary
    it returns, and changes nothing else. *)
Lemma stateful_valid (self : Store.addr) (p : params) (h : Store.t) :
  0 < net_income_monthly p ->
  call (Stateful.analyze_nic_data self) p h
  = ((inr (length h + 2)%nat, Val.divisors p),
     h ++ [Store.DictObject (Val.needs_items p);
           Store.ListObject (Val.insights p);
           Store.ResultObject (return_dict (Val.locals p))]).
Proof.
  intro Hpos. pose proof (pos_nonzero _ Hpos) as Hnz.
  unfold call, Stateful.analyze_nic_data.
  destruct (leb_spec (net_income_monthly p) 0) as [Hle | _];
    [exfalso; exact (Qlt_not_le _ _ Hpos Hle) |].
  cbv zeta.
  rewrite !(store_bind_truediv _ (net_income_monthly p)) by exact Hnz.
  cbv [Val.locals Val.divisors Val.survival_ratio Val.survival_status
       Val.culprit_item Val.culprit_amount Val.heaviest Val.insights
       Val.weakness_insight_text Val.rule_sentences Val.needs_message
       Val.total_expenses_monthly Val.total_needs Val.dsr_status Val.dsr_pct
       Val.needs_surplus_amount Val.wants_surplus_amount Val.needs_items tl
       Val.needs_score Val.wants_score Val.savings_score Val.debt_score
       Val.health_score Val.clamp Val.actual_needs_pct Val.actual_wants_pct
       Val.actual_savings_pct Val.savings_monthly_derived return_dict
       Locals.health_score Locals.actual_needs_pct Locals.actual_wants_pct
       Locals.actual_savings_pct Locals.dsr_pct Locals.dsr_status
       Locals.survival_ratio Locals.survival_status
       Locals.weakness_insight_text Locals.culprit_item
       Locals.culprit_amount Locals.needs_surplus_amount
       Locals.wants_surplus_amount].
  assert (N25 : ~ 25 == 0) by (apply pos_nonzero; reflexivity).
  assert (N20 : ~ 20 == 0) by (apply pos_nonzero; reflexivity).
  assert (N40 : ~ 40 == 0) by (apply pos_nonzero; reflexivity).
  destruct (ltb_spec 0 (needs_food p + needs_housing p + needs_transport p
                        + needs_utilities p + needs_insurance p
                        + needs_debt p + wants_misc p)) as [Hte | Hte];
    [rewrite store_bind_bind, store_bind_truediv by exact (pos_nonzero _ Hte)
    |];
    rewrite store_bind_ret;
    rewrite (store_bind_truediv _ 25) by exact N25;
    rewrite (store_bind_truediv _ 20) by exact N20;
    rewrite (store_bind_truediv _ 20) by exact N20;
    rewrite (store_bind_truediv _ 40) by exact N40;
    rewrite store_bind_new;
    (destruct (Py.ltb 0 (needs_food p + needs_housing p + needs_transport p
                         + needs_utilities p + needs_insurance p
                         + needs_debt p));
     [rewrite store_max_key_subscript
        by (repeat constructor; simpl; intuition discriminate)
     | rewrite store_bind_ret]);
    cbv beta iota;
    rewrite store_bind_new;
    set (h0 := h ++ [Store.DictObject _]);
    (destruct (Py.float_leb _ _);
     [rewrite store_bind_append | rewrite store_bind_ret]);
    (destruct (existsb _ _);
     [rewrite store_bind_append | rewrite store_bind_ret]);
    (destruct (Py.ltb 0 (Py.max 0.0 (_ - 0.50 * _)));
     [rewrite store_bind_append | rewrite store_bind_ret]);
    (destruct (Py.ltb 0 (Py.max 0.0 (_ - 0.30 * _)));
     [rewrite store_bind_append | rewrite store_bind_ret]);
    rewrite store_bind_list_items; cbn [app]; cbv iota;
    first [rewrite store_bind_append | rewrite store_bind_ret];
    rewrite store_bind_list_items;
    cbv [Store.new Store.after]; subst h0;
    rewrite <- !app_assoc, !length_app; cbn [app length];
    replace (length h + 1 + 1)%nat with (length h + 2)%nat by lia;
    reflexivity.
Qed.

(** * The claims *)

(** C1: for every input with [net_income_monthly > 0], whatever the other
    seven amounts are (negative ones included), the call returns, and the
    [health_score] it returns lies in [0, 100]: it is the rounded sum of four
    sub-scores that lie in [0, 20], [0, 20], [0, 35] and [0, 25]. *)
Theorem health_score_range (self : FinancialHealthAnalyzer) (p : params) :
  0 < net_income_monthly p ->
  exists (l : Locals.t) (r : result) (t : list Q),
    call (analyze_nic_data_locals self) p = (inr l, t)
    /\ call (analyze_nic_data self) p = (inr r, t)
    /\ 0 <= Locals.needs_score l <= 20
    /\ 0 <= Locals.wants_score l <= 20
    /\ 0 <= Locals.savings_score l <= 35
    /\ 0 <= Locals.debt_score l <= 25
    /\ Locals.health_score l
       = Locals.needs_score l + Locals.wants_score l
         + Locals.savings_score l + Locals.debt_score l
    /\ health_score r = Py.round (Locals.health_score l) 2
    /\ 0 <= health_score r <= 100.
Proof.
  intro Hpos.
  exists (Val.locals p), (return_dict (Val.locals p)), (Val.divisors p).
  split; [now apply analyze_nic_data_locals_valid |].
  split; [now apply analyze_nic_data_valid |].
  cbn [Val.locals return_dict Locals.needs_score Locals.wants_score
       Locals.savings_score Locals.debt_score Locals.health_score
       health_score].
  assert (Hn : 0 <= Val.needs_score p <= 20)
    by (unfold Val.needs_score;
        match goal with
        | |- _ <= Val.clamp ?hi ?raw <= _ =>
            pose proof (clamp_range hi raw); lra
        end).
  assert (Hw : 0 <= Val.wants_score p <= 20)
    by (unfold Val.wants_score;
        match goal with
        | |- _ <= Val.clamp ?hi ?raw <= _ =>
            pose proof (clamp_range hi raw); lra
        end).
  assert (Hs : 0 <= Val.savings_score p <= 35)
    by (unfold Val.savings_score;
        match goal with
        | |- _ <= Val.clamp ?hi ?raw <= _ =>
            pose proof (clamp_range hi raw); lra
        end).
  assert (Hd : 0 <= Val.debt_score p <= 25)
    by (unfold Val.debt_score;
        match goal with
        | |- _ <= Val.clamp ?hi ?raw <= _ =>
            pose proof (clamp_range hi raw); lra
        end).
  repeat (split; [assumption || reflexivity |]).
  apply (round_range 0 100). unfold Val.health_score.
  change (inject_Z 0) with 0. change (inject_Z 100) with 100. lra.
Qed.

Lemma health_score_range_sample :
  0 < net_income_monthly sample_params
  /\ exists (r : result) (t : list Q),
       generate_dashboard_numbers sample_params = (inr r, t)
       /\ 0 <= health_score r <= 100.
Proof.
  split; [reflexivity |].
  destruct (health_score_range {| attributes := [] |} sample_params eq_refl)
    as (l & r & t & _ & Hr & _ & _ & _ & _ & _ & _ & Hrange).
  exists r, t. split; [exact Hr | exact Hrange].
Defined.

(** C2: the call fails exactly when [net_income_monthly <= 0], whatever the
    other seven amounts are; the failure is the validation error and no
    division has been evaluated when it is raised; with
    [net_income_monthly > 0] the call returns a result. *)
Theorem validation_error_iff (self : FinancialHealthAnalyzer) (p : params) :
  ((exists e : Py.exn, Py.outcome (call (analyze_nic_data self) p) = inl e)
   <-> net_income_monthly p <= 0)
  /\ (net_income_monthly p <= 0 ->
      call (analyze_nic_data self) p
      = (inl (Py.ValueError "net_income_monthly ต้องมากกว่า 0"), []))
  /\ (0 < net_income_monthly p ->
      exists r : result, Py.outcome (call (analyze_nic_data self) p) = inr r).
Proof.
  split; [split |].
  - intros [e He].
    destruct (Qlt_le_dec 0 (net_income_monthly p)) as [Hpos | Hle];
      [| exact Hle].
    rewrite (analyze_nic_data_valid self p Hpos) in He. discriminate He.
  - intro Hle. rewrite (analyze_nic_data_invalid self p Hle).
    eexists. reflexivity.
  - split; [apply analyze_nic_data_invalid |].
    intro Hpos. rewrite (analyze_nic_data_valid self p Hpos).
    eexists. reflexivity.
Qed.

(** C3: on [sample_params] (income 30000; food 5000, housing 5000,
    transport 2000, utilities 1000, insurance 1000, debt 1000; wants 9000)
    the call returns needs 50%, wants 30%, savings 20%, a DSR of 3.33, a
    survival ratio of 1.25 with status Warning, DSR status Excellent, a
    health score of 97.92, no surplus, the culprit "food" (the first of the
    two entries at 5000) and the positive sentence alone as insight text. *)
Theorem sample_scenario :
  exists (l : Locals.t) (r : result) (t : list Q),
    call (analyze_nic_data_locals {| attributes := [] |}) sample_params
    = (inr l, t)
    /\ generate_dashboard_numbers sample_params = (inr r, t)
    /\ Locals.total_needs l == 15000
    /\ Locals.total_expenses_monthly l == 24000
    /\ Locals.savings_monthly_derived l == 6000
    /\ actual_needs_pct r == 50.0
    /\ actual_wants_pct r == 30.0
    /\ actual_savings_pct r == 20.0
    /\ dsr_pct r == 3.33
    /\ survival_ratio r = Py.Fin (5 # 4)
    /\ survival_status r = "Warning"%string
    /\ dsr_status r = "Excellent"%string
    /\ Locals.needs_score l == 20
    /\ Locals.wants_score l == 20
    /\ Locals.savings_score l == 35
    /\ Py.round (Locals.debt_score l) 2 == 22.92
    /\ health_score r == 97.92
    /\ needs_surplus_amount r == 0
    /\ wants_surplus_amount r == 0
    /\ Py.get (Locals.needs_items l) "food" = Some 5000
    /\ Py.get (Locals.needs_items l) "housing" = Some 5000
    /\ culprit_item r = Some "food"%string
    /\ culprit_amount r == 5000
    /\ Locals.insights l = [positive_sentence]
    /\ weakness_insight_text r = positive_sentence.
Proof.
  do 3 eexists.
  split; [vm_compute; reflexivity |].
  split; [vm_compute; reflexivity |].
  cbn [Locals.total_needs Locals.total_expenses_monthly
       Locals.savings_monthly_derived Locals.needs_score Locals.wants_score
       Locals.savings_score Locals.debt_score Locals.needs_items
       Locals.insights actual_needs_pct actual_wants_pct actual_savings_pct
       dsr_pct survival_ratio survival_status dsr_status health_score
       needs_surplus_amount wants_surplus_amount culprit_item culprit_amount
       weakness_insight_text].
  repeat split; vm_compute; reflexivity.
Qed.

(** C4 (as amended): for every valid input with [total_needs > 0] the
    culprit is the first entry of [needs_items], in the order food, housing,
    transport, utilities, insurance, debt, whose amount is the greatest; the
    local [culprit_amount] is that amount, and the [culprit_amount] returned
    is that amount rounded to two decimals, hence the amount itself when it
    has at most two decimals.  When [total_needs] is not positive the culprit
    is [None] and the amount is 0. *)
Theorem culprit_first_greatest (self : FinancialHealthAnalyzer) (p : params) :
  0 < net_income_monthly p ->
  exists (l : Locals.t) (r : result) (t : list Q),
    call (analyze_nic_data_locals self) p = (inr l, t)
    /\ call (analyze_nic_data self) p = (inr r, t)
    /\ Locals.needs_items l
       = [ ("food", needs_food p); ("housing", needs_housing p);
           ("transport", needs_transport p);
           ("utilities", needs_utilities p);
           ("insurance", needs_insurance p); ("debt", needs_debt p) ]%string
    /\ culprit_item r = Locals.culprit_item l
    /\ culprit_amount r = Py.round (Locals.culprit_amount l) 2
    /\ (forall n : Z,
          Locals.culprit_amount l == inject_Z n / 100 ->
          culprit_amount r == Locals.culprit_amount l)
    /\ (0 < Locals.total_needs l ->
        exists (item : string) (amount : Q),
          first_greatest (Locals.needs_items l) (item, amount)
          /\ Locals.culprit_item l = Some item
          /\ Locals.culprit_amount l = amount)
    /\ (Locals.total_needs l <= 0 ->
        culprit_item r = None /\ culprit_amount r == 0).
Proof.
  intro Hpos.
  exists (Val.locals p), (return_dict (Val.locals p)), (Val.divisors p).
  split; [now apply analyze_nic_data_locals_valid |].
  split; [now apply analyze_nic_data_valid |].
  cbn [return_dict Val.locals Locals.needs_items Locals.culprit_item
       Locals.culprit_amount Locals.total_needs culprit_item culprit_amount].
  split; [reflexivity |]. split; [reflexivity |]. split; [reflexivity |].
  split; [intros n Hn; exact (round_hundredths n _ Hn) |].
  unfold Val.culprit_item, Val.culprit_amount.
  destruct (ltb_spec 0 (Val.total_needs p)) as [Htn | Htn]; split.
  - intros _. exists (fst (Val.heaviest p)), (snd (Val.heaviest p)).
    rewrite <- surjective_pairing.
    split; [apply heaviest_first_greatest | split; reflexivity].
  - intro H. exfalso. lra.
  - intro H. exfalso. lra.
  - intros _. split; [reflexivity |]. vm_compute. reflexivity.
Qed.

Lemma culprit_first_greatest_sample :
  0 < net_income_monthly sample_params
  /\ exists (l : Locals.t) (t : list Q),
       call (analyze_nic_data_locals {| attributes := [] |}) sample_params
       = (inr l, t)
       /\ first_greatest (Locals.needs_items l) ("food"%string, 5000)
       /\ Locals.culprit_item l = Some "food"%string.
Proof.
  split; [reflexivity |].
  destruct (culprit_first_greatest {| attributes := [] |} sample_params
              eq_refl)
    as (l & r & t & Hl & _ & _ & _ & _ & _ & Hmax & _).
  exists l, t. split; [exact Hl |].
  assert (E : (inr l, t)
              = call (analyze_nic_data_locals {| attributes := [] |})
                  sample_params)
    by (symmetry; exact Hl).
  vm_compute in E. injection E as -> _.
  destruct (Hmax eq_refl) as (item & amount & Hfirst & Hitem & Hamount).
  cbn [Locals.culprit_item Locals.culprit_amount] in Hitem, Hamount.
  injection Hitem as <-. rewrite <- Hamount in Hfirst.
  split; [exact Hfirst | reflexivity].
Defined.

(** C4, as stated, fails: with food at 40 + 1/512 as the only expense the
    culprit is "food" and the [culprit_amount] returned is 40, which is not
    the amount of that category. *)
Lemma culprit_amount_rounded_counterexample :
  exists (r : result) (t : list Q),
    generate_dashboard_numbers (food_only (20481 # 512)) = (inr r, t)
    /\ 0 < net_income_monthly (food_only (20481 # 512))
    /\ 0 < Val.total_needs (food_only (20481 # 512))
    /\ culprit_item r = Some "food"%string
    /\ needs_food (food_only (20481 # 512)) == 40 + (1 # 512)
    /\ culprit_amount r == 40
    /\ ~ culprit_amount r == needs_food (food_only (20481 # 512)).
Proof.
  do 2 eexists. split; [vm_compute; reflexivity |].
  cbn [culprit_item culprit_amount].
  repeat split; try (vm_compute; reflexivity).
  intro H. vm_compute in H. discriminate H.
Qed.

(** C5 (as amended): for every valid input the insight text is not empty;
    and whenever the survival ratio is above 1.0 (before rounding, which is
    the case when it is so after rounding), the DSR status is Excellent or
    Good, and the needs and wants surplus amounts are 0 before they are
    rounded, the text is exactly the positive sentence. *)
Theorem insight_text_fallback (self : FinancialHealthAnalyzer) (p : params) :
  0 < net_income_monthly p ->
  exists (l : Locals.t) (r : result) (t : list Q),
    call (analyze_nic_data_locals self) p = (inr l, t)
    /\ call (analyze_nic_data self) p = (inr r, t)
    /\ weakness_insight_text r <> ""%string
    /\ dsr_status r = Locals.dsr_status l
    /\ needs_surplus_amount r = Py.round (Locals.needs_surplus_amount l) 2
    /\ wants_surplus_amount r = Py.round (Locals.wants_surplus_amount l) 2
    /\ (float_gt (survival_ratio r) 1.0 ->
        float_gt (Locals.survival_ratio l) 1.0)
    /\ (float_gt (Locals.survival_ratio l) 1.0 ->
        dsr_status r = "Excellent"%string \/ dsr_status r = "Good"%string ->
        Locals.needs_surplus_amount l == 0 ->
        Locals.wants_surplus_amount l == 0 ->
        Locals.insights l = [positive_sentence]
        /\ weakness_insight_text r = positive_sentence).
Proof.
  intro Hpos.
  exists (Val.locals p), (return_dict (Val.locals p)), (Val.divisors p).
  split; [now apply analyze_nic_data_locals_valid |].
  split; [now apply analyze_nic_data_valid |].
  cbn [return_dict Val.locals Locals.insights Locals.weakness_insight_text
       Locals.survival_ratio Locals.dsr_status Locals.needs_surplus_amount
       Locals.wants_surplus_amount weakness_insight_text dsr_status
       needs_surplus_amount wants_surplus_amount survival_ratio].
  split; [apply weakness_insight_text_nonempty |].
  do 3 (split; [reflexivity |]).
  split; [apply float_gt_round |].
  intros Hs Hd Hn Hw.
  unfold Val.weakness_insight_text, Val.insights.
  rewrite (no_rule_fires p Hs Hd Hn Hw). split; reflexivity.
Qed.

Lemma insight_text_fallback_sample :
  0 < net_income_monthly sample_params
  /\ exists (r : result) (t : list Q),
       generate_dashboard_numbers sample_params = (inr r, t)
       /\ weakness_insight_text r = positive_sentence.
Proof.
  split; [reflexivity |].
  destruct (insight_text_fallback {| attributes := [] |} sample_params
              eq_refl)
    as (l & r & t & Hl & Hr & _ & Hst & _ & _ & _ & Hfallback).
  exists r, t. split; [exact Hr |].
  assert (El : (inr l, t)
               = call (analyze_nic_data_locals {| attributes := [] |})
                   sample_params)
    by (symmetry; exact Hl).
  vm_compute in El. injection El as -> _.
  apply Hfallback.
  - reflexivity.
  - left. rewrite Hst. reflexivity.
  - reflexivity.
  - reflexivity.
Defined.

(** C5, as stated, fails: with food at 50 + 1/1024 of an income of 100 the
    result has a survival ratio of 2.0, DSR status Excellent and both surplus
    amounts equal to 0, yet the text is the needs-overspend sentence. *)
Lemma insight_fallback_counterexample :
  exists (r : result) (t : list Q),
    generate_dashboard_numbers (food_only (51201 # 1024)) = (inr r, t)
    /\ 0 < net_income_monthly (food_only (51201 # 1024))
    /\ float_gt (survival_ratio r) 1.0
    /\ dsr_status r = "Excellent"%string
    /\ needs_surplus_amount r == 0
    /\ wants_surplus_amount r == 0
    /\ weakness_insight_text r
       = (needs_sentence (1 # 1024)
          ++ culprit_clause "food" (51201 # 1024))%string
    /\ weakness_insight_text r <> positive_sentence.
Proof.
  do 2 eexists. split; [vm_compute; reflexivity |].
  cbn [survival_ratio dsr_status needs_surplus_amount wants_surplus_amount
       weakness_insight_text].
  repeat split; try (vm_compute; reflexivity).
  intro H. vm_compute in H. discriminate H.
Qed.

(** C6 (as amended): with the other seven inputs fixed and
    [net_income_monthly > 0], raising [needs_debt] from a non-negative value
    (or from any value at which the debt sub-score is below its ceiling of
    25) strictly lowers the debt sub-score while that sub-score is above 0;
    raising [needs_debt] from any value never raises the debt, needs or
    savings sub-score, leaves the wants sub-score unchanged, and never raises
    the health score, before or after rounding. *)
Theorem needs_debt_monotone (self : FinancialHealthAnalyzer) (p : params)
  (d1 d2 : Q) :
  0 < net_income_monthly p ->
  d1 < d2 ->
  exists (l1 l2 : Locals.t) (r1 r2 : result) (t1 t2 : list Q),
    call (analyze_nic_data_locals self) (with_needs_debt p d1) = (inr l1, t1)
    /\ call (analyze_nic_data self) (with_needs_debt p d1) = (inr r1, t1)
    /\ call (analyze_nic_data_locals self) (with_needs_debt p d2)
       = (inr l2, t2)
    /\ call (analyze_nic_data self) (with_needs_debt p d2) = (inr r2, t2)
    /\ (0 <= d1 \/ Locals.debt_score l1 < 25 ->
        0 < Locals.debt_score l1 ->
        Locals.debt_score l2 < Locals.debt_score l1)
    /\ Locals.debt_score l2 <= Locals.debt_score l1
    /\ Locals.needs_score l2 <= Locals.needs_score l1
    /\ Locals.savings_score l2 <= Locals.savings_score l1
    /\ Locals.wants_score l2 = Locals.wants_score l1
    /\ Locals.health_score l2 <= Locals.health_score l1
    /\ health_score r2 <= health_score r1.
Proof.
  intros Hpos Hlt.
  exists (Val.locals (with_needs_debt p d1)),
    (Val.locals (with_needs_debt p d2)),
    (return_dict (Val.locals (with_needs_debt p d1))),
    (return_dict (Val.locals (with_needs_debt p d2))),
    (Val.divisors (with_needs_debt p d1)),
    (Val.divisors (with_needs_debt p d2)).
  split; [now apply analyze_nic_data_locals_valid |].
  split; [now apply analyze_nic_data_valid |].
  split; [now apply analyze_nic_data_locals_valid |].
  split; [now apply analyze_nic_data_valid |].
  cbn [return_dict Val.locals Locals.debt_score Locals.needs_score
       Locals.savings_score Locals.wants_score Locals.health_score
       health_score].
  split; [now apply debt_score_decreases |].
  split; [now apply debt_score_non_increasing |].
  split; [now apply needs_score_non_increasing |].
  split; [now apply savings_score_non_increasing |].
  split; [reflexivity |].
  split; [now apply health_score_non_increasing |].
  apply round_mono. now apply health_score_non_increasing.
Qed.

Lemma needs_debt_monotone_sample :
  0 < net_income_monthly sample_params
  /\ 1000 < 2000
  /\ exists (l1 l2 : Locals.t) (t1 t2 : list Q),
       call (analyze_nic_data_locals {| attributes := [] |})
         (with_needs_debt sample_params 1000) = (inr l1, t1)
       /\ call (analyze_nic_data_locals {| attributes := [] |})
            (with_needs_debt sample_params 2000) = (inr l2, t2)
       /\ Locals.debt_score l2 < Locals.debt_score l1
       /\ Locals.health_score l2 <= Locals.health_score l1.
Proof.
  split; [reflexivity |]. split; [reflexivity |].
  destruct (needs_debt_monotone {| attributes := [] |} sample_params
              1000 2000 eq_refl eq_refl)
    as (l1 & l2 & r1 & r2 & t1 & t2 & H1 & _ & H2 & _ & Hstrict & _ & _ & _
        & _ & Hhealth & _).
  exists l1, l2, t1, t2.
  split; [exact H1 |]. split; [exact H2 |].
  split; [| exact Hhealth].
  apply Hstrict.
  - left. discriminate.
  - assert (E : (inr l1, t1)
                = call (analyze_nic_data_locals {| attributes := [] |})
                    (with_needs_debt sample_params 1000))
      by (symmetry; exact H1).
    vm_compute in E. injection E as -> _. reflexivity.
Defined.

(** C6, as stated, fails: with no other expense and an income of 100,
    raising [needs_debt] from -10 to -5 leaves the debt sub-score at its
    ceiling of 25, above its floor of 0 and not strictly lower. *)
Lemma needs_debt_ceiling_counterexample :
  exists (l1 l2 : Locals.t) (t1 t2 : list Q),
    call (analyze_nic_data_locals {| attributes := [] |})
      (with_needs_debt (food_only 0) (-10)) = (inr l1, t1)
    /\ call (analyze_nic_data_locals {| attributes := [] |})
         (with_needs_debt (food_only 0) (-5)) = (inr l2, t2)
    /\ 0 < net_income_monthly (food_only 0)
    /\ -10 < -5
    /\ 0 < Locals.debt_score l1
    /\ Locals.debt_score l1 == 25
    /\ Locals.debt_score l2 == 25
    /\ ~ Locals.debt_score l2 < Locals.debt_score l1.
Proof.
  do 4 eexists. split; [vm_compute; reflexivity |].
  split; [vm_compute; reflexivity |].
  cbn [Locals.debt_score].
  repeat split; try (vm_compute; reflexivity).
  intro H. vm_compute in H. discriminate H.
Qed.

(** C7: for every valid input the DSR status is decided by the local
    [dsr_pct], the percentage before it is rounded for the result, with
    inclusive upper bounds: at most 15 is Excellent, above 15 and at most 40
    is Good, above 40 and at most 50 is Warning, above 50 is Critical. *)
Theorem dsr_status_thresholds (self : FinancialHealthAnalyzer) (p : params) :
  0 < net_income_monthly p ->
  exists (l : Locals.t) (r : result) (t : list Q),
    call (analyze_nic_data_locals self) p = (inr l, t)
    /\ call (analyze_nic_data self) p = (inr r, t)
    /\ Locals.dsr_pct l = needs_debt p / net_income_monthly p * 100
    /\ dsr_pct r = Py.round (Locals.dsr_pct l) 2
    /\ (Locals.dsr_pct l <= 15 -> dsr_status r = "Excellent"%string)
    /\ (15 < Locals.dsr_pct l <= 40 -> dsr_status r = "Good"%string)
    /\ (40 < Locals.dsr_pct l <= 50 -> dsr_status r = "Warning"%string)
    /\ (50 < Locals.dsr_pct l -> dsr_status r = "Critical"%string).
Proof.
  intro Hpos.
  exists (Val.locals p), (return_dict (Val.locals p)), (Val.divisors p).
  split; [now apply analyze_nic_data_locals_valid |].
  split; [now apply analyze_nic_data_valid |].
  cbn [Val.locals return_dict Locals.dsr_pct Locals.dsr_status dsr_pct
       dsr_status].
  split; [reflexivity |]. split; [reflexivity |].
  unfold Val.dsr_status.
  destruct (leb_spec (Val.dsr_pct p) 15);
    destruct (leb_spec (Val.dsr_pct p) 40);
    destruct (leb_spec (Val.dsr_pct p) 50);
    repeat split; intros; try reflexivity; exfalso; lra.
Qed.

(** A debt of 15.004% of income: the rounded percentage is 15.0 and the
    status is Good. *)
Lemma dsr_status_thresholds_unrounded :
  0 < net_income_monthly (with_needs_debt (food_only 0) 15.004)
  /\ exists (r : result) (t : list Q),
       generate_dashboard_numbers (with_needs_debt (food_only 0) 15.004)
       = (inr r, t)
       /\ dsr_pct r == 15
       /\ dsr_status r = "Good"%string.
Proof.
  split; [reflexivity |].
  destruct (dsr_status_thresholds {| attributes := [] |}
              (with_needs_debt (food_only 0) 15.004) eq_refl)
    as (l & r & t & _ & Hr & Hpct & Hround & _ & Hgood & _).
  exists r, t. split; [exact Hr |]. split.
  - rewrite Hround, Hpct. reflexivity.
  - apply Hgood. rewrite Hpct. split; [reflexivity | discriminate].
Defined.

(** C8: no call divides by zero: every divisor of every division a call
    evaluates is positive and [ZeroDivisionError] is never the outcome; with
    [net_income_monthly > 0] the four percentage divisions divide by
    [net_income_monthly]; and when the seven expense amounts are all 0 the
    survival-ratio division is not evaluated, [survival_ratio] is the
    infinity sentinel, returned as it is, and [survival_status] is
    Excellent. *)
Theorem no_division_by_zero (self : FinancialHealthAnalyzer) (p : params) :
  Forall (fun d => 0 < d) (Py.divisors (call (analyze_nic_data self) p))
  /\ Py.outcome (call (analyze_nic_data self) p) <> inl Py.ZeroDivisionError
  /\ (0 < net_income_monthly p ->
      firstn 4 (Py.divisors (call (analyze_nic_data self) p))
      = [ net_income_monthly p; net_income_monthly p;
          net_income_monthly p; net_income_monthly p ])
  /\ (0 < net_income_monthly p ->
      needs_food p == 0 -> needs_housing p == 0 -> needs_transport p == 0 ->
      needs_utilities p == 0 -> needs_insurance p == 0 ->
      needs_debt p == 0 -> wants_misc p == 0 ->
      exists r : result,
        call (analyze_nic_data self) p
        = (inr r, [ net_income_monthly p; net_income_monthly p;
                    net_income_monthly p; net_income_monthly p;
                    25; 20; 20; 40 ])
        /\ survival_ratio r = Py.PosInf
        /\ survival_status r = "Excellent"%string).
Proof.
  destruct (Qlt_le_dec 0 (net_income_monthly p)) as [Hpos | Hle].
  - rewrite (analyze_nic_data_valid self p Hpos).
    split; [now apply forall_divisors_pos |].
    split; [discriminate |].
    split; [reflexivity |].
    intros _ H1 H2 H3 H4 H5 H6 H7.
    exists (return_dict (Val.locals p)).
    assert (Hte : Py.ltb 0 (Val.total_expenses_monthly p) = false).
    { apply ltb_ge. unfold Val.total_expenses_monthly, Val.total_needs.
      rewrite H1, H2, H3, H4, H5, H6, H7. discriminate. }
    unfold Val.divisors.
    cbn [return_dict Val.locals survival_ratio survival_status
         Locals.survival_ratio Locals.survival_status].
    unfold Val.survival_status, Val.survival_ratio. rewrite Hte.
    repeat split.
  - rewrite (analyze_nic_data_invalid self p Hle).
    split; [constructor |]. split; [discriminate |].
    split; intro Hpos; exfalso; exact (Qlt_not_le _ _ Hpos Hle).
Qed.

Lemma no_division_by_zero_no_expense :
  0 < net_income_monthly (food_only 0)
  /\ exists r : result,
       generate_dashboard_numbers (food_only 0)
       = (inr r, [100; 100; 100; 100; 25; 20; 20; 40])
       /\ survival_ratio r = Py.PosInf
       /\ survival_status r = "Excellent"%string.
Proof.
  split; [reflexivity |].
  apply (proj2 (proj2 (proj2
           (no_division_by_zero {| attributes := [] |} (food_only 0)))));
    reflexivity.
Defined.

(** C9: the method is deterministic and keeps no state.  Run on the object
    store, two calls on the same parameters hand their callers the same
    outcome, the same exception or a dictionary with the same content on
    every field, and evaluate the same divisions, whatever the two stores
    hold and whichever references are the receivers: the store of another
    run, or the store a first call left behind, on which the next call gives
    what the first gave.  A call changes no object of the store it starts
    in, so neither the receiver nor an earlier result: it only allocates,
    and the dictionary it returns is a new object, at a reference that was
    not in use and that the next call does not return again.  The outcome
    is that of the method taken as a function of its eight numbers. *)
Theorem analyze_nic_data_stateless (self1 self2 : Store.addr) (p : params)
  (h1 h2 : Store.t) :
  Store.outcome (call (Stateful.analyze_nic_data self1) p h1)
  = Store.outcome (call (Stateful.analyze_nic_data self2) p h2)
  /\ Store.divisors (call (Stateful.analyze_nic_data self1) p h1)
     = Store.divisors (call (Stateful.analyze_nic_data self2) p h2)
  /\ Store.outcome
       (call (Stateful.analyze_nic_data self2) p
          (Store.final (call (Stateful.analyze_nic_data self1) p h1)))
     = Store.outcome (call (Stateful.analyze_nic_data self1) p h1)
  /\ Store.preserved h1
       (Store.final (call (Stateful.analyze_nic_data self1) p h1))
  /\ (forall a : Store.addr,
        Store.returned (call (Stateful.analyze_nic_data self1) p h1) = inr a ->
        Store.read h1 a = None
        /\ Store.returned
             (call (Stateful.analyze_nic_data self2) p
                (Store.final (call (Stateful.analyze_nic_data self1) p h1)))
           <> inr a)
  /\ Store.outcome (call (Stateful.analyze_nic_data self1) p h1)
     = match Py.outcome (generate_dashboard_numbers p) with
       | inl e => inl (Store.Python e)
       | inr r => inr (Some (Store.ResultObject r))
       end.
Proof.
  unfold generate_dashboard_numbers.
  destruct (Qlt_le_dec 0 (net_income_monthly p)) as [Hpos | Hle].
  - rewrite (analyze_nic_data_valid _ p Hpos).
    rewrite !(stateful_valid _ p _ Hpos).
    unfold Store.outcome, Store.returned, Store.final, Store.divisors,
      Py.outcome.
    cbn [fst snd]. rewrite !read_third.
    split; [reflexivity |]. split; [reflexivity |]. split; [reflexivity |].
    split; [apply preserved_app |]. split; [| reflexivity].
    intros a Ha. injection Ha as <-. split; [apply read_beyond |].
    intro E. injection E as E. rewrite length_app in E.
    cbn [length] in E. lia.
  - rewrite (analyze_nic_data_invalid _ p Hle).
    rewrite !(stateful_invalid _ p _ Hle).
    unfold Store.outcome, Store.returned, Store.final, Store.divisors,
      Py.outcome.
    cbn [fst snd].
    split; [reflexivity |]. split; [reflexivity |]. split; [reflexivity |].
    split; [intros a o H; exact H |]. split; [| reflexivity].
    intros a Ha. discriminate Ha.
Qed.

Lemma analyze_nic_data_stateless_sample :
  Store.returned
    (call (Stateful.analyze_nic_data 0%nat) sample_params
       [Store.InstanceObject used_analyzer])
  = inr 3%nat
  /\ Store.preserved [Store.InstanceObject used_analyzer]
       (Store.final
          (call (Stateful.analyze_nic_data 0%nat) sample_params
             [Store.InstanceObject used_analyzer]))
  /\ Store.outcome
       (call (Stateful.analyze_nic_data 0%nat) sample_params
          [Store.InstanceObject used_analyzer])
     = Store.outcome
         (call (Stateful.analyze_nic_data 1%nat) sample_params
            [Store.ListObject ["x"%string];
             Store.InstanceObject {| attributes := [] |}]).
Proof.
  destruct (analyze_nic_data_stateless 0%nat 1%nat sample_params
              [Store.InstanceObject used_analyzer]
              [Store.ListObject ["x"%string];
               Store.InstanceObject {| attributes := [] |}])
    as (Hsame & _ & _ & Hkept & _ & _).
  split; [vm_compute; reflexivity |]. split; assumption.
Defined.

(** C10: when the total expenses equal the net income the survival ratio is
    1.0; the survival status is Warning, since Critical needs a ratio below
    1.0, yet the crisis sentence opens the insight text, since its rule fires
    at a ratio of at most 1.0. *)
Theorem warning_with_crisis_sentence (self : FinancialHealthAnalyzer)
  (p : params) :
  0 < net_income_monthly p ->
  needs_food p + needs_housing p + needs_transport p + needs_utilities p
  + needs_insurance p + needs_debt p + wants_misc p
  == net_income_monthly p ->
  exists (l : Locals.t) (r : result) (t : list Q) (ratio : Q)
         (others : list string) (tail : string),
    call (analyze_nic_data_locals self) p = (inr l, t)
    /\ call (analyze_nic_data self) p = (inr r, t)
    /\ Locals.survival_ratio l = Py.Fin ratio
    /\ ratio == 1.0
    /\ survival_ratio r = Py.Fin 1
    /\ Py.float_ltb (Locals.survival_ratio l) 1.0 = false
    /\ survival_status r = "Warning"%string
    /\ Py.float_leb (Locals.survival_ratio l) 1.0 = true
    /\ Locals.insights l = crisis_sentence :: others
    /\ weakness_insight_text r = Py.join " " (crisis_sentence :: others)
    /\ weakness_insight_text r = (crisis_sentence ++ tail)%string.
Proof.
  intros Hpos Heq.
  assert (Hte : 0 < Val.total_expenses_monthly p)
    by (unfold Val.total_expenses_monthly, Val.total_needs; rewrite Heq;
        exact Hpos).
  assert (Hratio :
            net_income_monthly p / Val.total_expenses_monthly p == 1).
  { unfold Val.total_expenses_monthly, Val.total_needs. rewrite Heq.
    field. now apply pos_nonzero. }
  assert (Hsr : Val.survival_ratio p
                = Py.Fin (net_income_monthly p / Val.total_expenses_monthly p)).
  { unfold Val.survival_ratio.
    destruct (ltb_spec 0 (Val.total_expenses_monthly p)); [reflexivity | lra]. }
  assert (Hlt : Py.float_ltb (Val.survival_ratio p) 1.0 = false)
    by (rewrite Hsr; apply ltb_ge; lra).
  assert (Hle : Py.float_leb (Val.survival_ratio p) 1.0 = true)
    by (rewrite Hsr; apply leb_le; lra).
  assert (Hins : exists others, Val.insights p = crisis_sentence :: others).
  { unfold Val.insights, Val.rule_sentences. rewrite Hle.
    cbn [app]. eexists. reflexivity. }
  destruct Hins as [others Hins].
  destruct (join_prefix " " crisis_sentence others) as [tail Htail].
  exists (Val.locals p), (return_dict (Val.locals p)), (Val.divisors p),
    (net_income_monthly p / Val.total_expenses_monthly p), others, tail.
  split; [now apply analyze_nic_data_locals_valid |].
  split; [now apply analyze_nic_data_valid |].
  cbn [return_dict Val.locals survival_ratio survival_status
       Locals.survival_ratio Locals.survival_status Locals.insights
       weakness_insight_text Locals.weakness_insight_text].
  split; [exact Hsr |]. split; [lra |].
  split.
  { rewrite Hsr. cbn [Py.is_not_inf Py.float_round]. f_equal.
    rewrite (round_comp _ _ Hratio 2%nat 2%nat eq_refl). reflexivity. }
  split; [exact Hlt |].
  split.
  { unfold Val.survival_status. rewrite Hlt. rewrite Hsr.
    assert (L3 : Py.float_ltb
                   (Py.Fin (net_income_monthly p / Val.total_expenses_monthly p))
                   3.0 = true) by (apply ltb_lt; lra).
    rewrite L3. reflexivity. }
  split; [exact Hle |].
  split; [exact Hins |].
  unfold Val.weakness_insight_text. rewrite Hins.
  split; [reflexivity | exact Htail].
Qed.

Lemma warning_with_crisis_sentence_break_even :
  0 < net_income_monthly (food_only 100)
  /\ needs_food (food_only 100) + needs_housing (food_only 100)
     + needs_transport (food_only 100) + needs_utilities (food_only 100)
     + needs_insurance (food_only 100) + needs_debt (food_only 100)
     + wants_misc (food_only 100)
     == net_income_monthly (food_only 100)
  /\ exists (r : result) (t : list Q) (tail : string),
       generate_dashboard_numbers (food_only 100) = (inr r, t)
       /\ survival_ratio r = Py.Fin 1
       /\ survival_status r = "Warning"%string
       /\ weakness_insight_text r = (crisis_sentence ++ tail)%string.
Proof.
  split; [reflexivity |]. split; [reflexivity |].
  destruct (warning_with_crisis_sentence {| attributes := [] |}
              (food_only 100) eq_refl eq_refl)
    as (l & r & t & ratio & others & tail & _ & Hr & _ & _ & Hsr & _ & Hst
        & _ & _ & _ & Htext).
  exists r, t, tail. repeat split; assumption.
Defined.

(** * Further properties of the analyzer *)

(** ** What a call returns *)

Lemma valid_returns (self : FinancialHealthAnalyzer) (p : params) :
  0 < net_income_monthly p ->
  returns self p (Val.locals p) (return_dict (Val.locals p)) (Val.divisors p).
Proof.
  intro Hpos. split;
    [now apply analyze_nic_data_locals_valid | now apply analyze_nic_data_valid].
Qed.

Lemma returns_locals (self : FinancialHealthAnalyzer) (p : params)
  (l : Locals.t) (r : result) (t : list Q) :
  returns self p l r t ->
  0 < net_income_monthly p ->
  l = Val.locals p /\ r = return_dict (Val.locals p) /\ t = Val.divisors p.
Proof.
  intros [Rl Rr] Hpos.
  rewrite (analyze_nic_data_locals_valid self p Hpos) in Rl.
  rewrite (analyze_nic_data_valid self p Hpos) in Rr.
  injection Rl as <- <-. injection Rr as <-. repeat split.
Qed.

(** ** The percentages *)

(** A quotient by the income, as a product. *)
Lemma pct_times_income (a i : Q) : 0 < i -> a / i * 100 * i == 100 * a.
Proof. intro H. field. now apply pos_nonzero. Qed.

Lemma pct_le (a i c : Q) : 0 < i -> (a / i * 100 <= c <-> 100 * a <= c * i).
Proof.
  intro H. rewrite <- (pct_times_income a i H). split; intro L.
  - apply Qmult_le_compat_r; [exact L | lra].
  - apply Qmult_lt_0_le_reg_r in L; assumption.
Qed.

Lemma pct_lt (a i c : Q) : 0 < i -> (a / i * 100 < c <-> 100 * a < c * i).
Proof.
  intro H. rewrite <- (pct_times_income a i H). split; intro L.
  - apply Qmult_lt_compat_r; assumption.
  - apply Qmult_lt_r in L; assumption.
Qed.

Lemma pct_ge (a i c : Q) : 0 < i -> (c <= a / i * 100 <-> c * i <= 100 * a).
Proof.
  intro H. rewrite <- (pct_times_income a i H). split; intro L.
  - apply Qmult_le_compat_r; [exact L | lra].
  - apply Qmult_lt_0_le_reg_r in L; assumption.
Qed.

Lemma pct_gt (a i c : Q) : 0 < i -> (c < a / i * 100 <-> c * i < 100 * a).
Proof.
  intro H. rewrite <- (pct_times_income a i H). split; intro L.
  - apply Qmult_lt_compat_r; assumption.
  - apply Qmult_lt_r in L; assumption.
Qed.

(** X1: for every call with [net_income_monthly > 0], the three percentages
    the method computes add up to 100 before rounding: the savings
    percentage is what the needs and the wants leave of the income, and it
    is negative when they exceed the income. *)
Theorem percentages_sum_to_100 (self : FinancialHealthAnalyzer) (p : params) :
  0 < net_income_monthly p ->
  exists (l : Locals.t) (r : result) (t : list Q),
    returns self p l r t
    /\ Locals.actual_needs_pct l + Locals.actual_wants_pct l
       + Locals.actual_savings_pct l == 100
    /\ Locals.actual_savings_pct l
       == 100 - Locals.actual_needs_pct l - Locals.actual_wants_pct l.
Proof.
  intro Hpos.
  exists (Val.locals p), (return_dict (Val.locals p)), (Val.divisors p).
  split; [now apply valid_returns |].
  cbn [Val.locals Locals.actual_needs_pct Locals.actual_wants_pct
       Locals.actual_savings_pct].
  unfold Val.actual_needs_pct, Val.actual_wants_pct, Val.actual_savings_pct,
    Val.savings_monthly_derived, Val.total_expenses_monthly.
  pose proof (pos_nonzero _ Hpos).
  split; field; assumption.
Qed.

Lemma percentages_sum_to_100_sample :
  0 < net_income_monthly sample_params
  /\ exists (l : Locals.t) (r : result) (t : list Q),
       returns used_analyzer sample_params l r t
       /\ Locals.actual_needs_pct l + Locals.actual_wants_pct l
          + Locals.actual_savings_pct l == 100.
Proof.
  split; [reflexivity |].
  destruct (percentages_sum_to_100 used_analyzer sample_params eq_refl)
    as (l & r & t & R & S & _).
  exists l, r, t. split; assumption.
Defined.

(** ** The survival status *)

Lemma div_lt_iff (a b c : Q) : 0 < b -> (a / b < c <-> a < c * b).
Proof.
  intro H.
  assert (E : a / b * b == a) by (field; now apply pos_nonzero).
  rewrite <- E at 2. split; intro L.
  - apply Qmult_lt_compat_r; assumption.
  - apply Qmult_lt_r in L; assumption.
Qed.

(** X2: for every call with [net_income_monthly > 0],
    [total_expenses_monthly] is the sum of the seven expenses, and the
    returned [survival_status] is decided by comparing the income with it:
    ["Critical"] exactly when the income is below the expenses, ["Warning"]
    exactly when it covers them but is below three times the expenses, and
    ["Excellent"] exactly when it is at least three times the expenses (which
    includes the case of no expenses, where the ratio is infinite). *)
Theorem survival_status_by_expenses (self : FinancialHealthAnalyzer)
  (p : params) :
  0 < net_income_monthly p ->
  exists (l : Locals.t) (r : result) (t : list Q),
    returns self p l r t
    /\ Locals.total_expenses_monthly l
       = needs_food p + needs_housing p + needs_transport p
         + needs_utilities p + needs_insurance p + needs_debt p
         + wants_misc p
    /\ (survival_status r = "Critical"%string
        <-> net_income_monthly p < Locals.total_expenses_monthly l)
    /\ (survival_status r = "Warning"%string
        <-> Locals.total_expenses_monthly l <= net_income_monthly p
            /\ net_income_monthly p < 3 * Locals.total_expenses_monthly l)
    /\ (survival_status r = "Excellent"%string
        <-> 3 * Locals.total_expenses_monthly l <= net_income_monthly p).
Proof.
  intro Hpos.
  exists (Val.locals p), (return_dict (Val.locals p)), (Val.divisors p).
  split; [now apply valid_returns |].
  cbn [Val.locals return_dict Locals.total_expenses_monthly survival_status
       Locals.survival_status].
  split; [reflexivity |].
  unfold Val.survival_status, Val.survival_ratio.
  destruct (ltb_spec 0 (Val.total_expenses_monthly p)) as [Hte | Hte];
    cbn [Py.float_ltb].
  - pose proof (div_lt_iff (net_income_monthly p)
                  (Val.total_expenses_monthly p) 1.0 Hte) as H1.
    pose proof (div_lt_iff (net_income_monthly p)
                  (Val.total_expenses_monthly p) 3.0 Hte) as H3.
    destruct (ltb_spec (net_income_monthly p / Val.total_expenses_monthly p)
                1.0) as [L1 | L1];
      destruct (ltb_spec (net_income_monthly p / Val.total_expenses_monthly p)
                  3.0) as [L3 | L3];
      try (apply H1 in L1); try (apply H3 in L3);
      try (assert (N1 : ~ net_income_monthly p
                          < 1.0 * Val.total_expenses_monthly p)
             by (intro N; apply H1 in N; lra));
      try (assert (N3 : ~ net_income_monthly p
                          < 3.0 * Val.total_expenses_monthly p)
             by (intro N; apply H3 in N; lra));
      repeat split; intros; try reflexivity; try discriminate;
      try lra; exfalso; lra.
  - repeat split; intros; try reflexivity; try discriminate;
      try lra; exfalso; lra.
Qed.

Lemma survival_status_by_expenses_sample :
  0 < net_income_monthly sample_params
  /\ exists (l : Locals.t) (r : result) (t : list Q),
       returns used_analyzer sample_params l r t
       /\ (survival_status r = "Warning"%string
           <-> Locals.total_expenses_monthly l
               <= net_income_monthly sample_params
               /\ net_income_monthly sample_params
                  < 3 * Locals.total_expenses_monthly l).
Proof.
  split; [reflexivity |].
  destruct (survival_status_by_expenses used_analyzer sample_params eq_refl)
    as (l & r & t & R & _ & _ & W & _).
  exists l, r, t. split; assumption.
Defined.

(** ** Rounding to cents *)

Lemma round_half_even_error (q : Q) :
  - (1 # 2) <= inject_Z (Py.round_half_even q) - q <= 1 # 2.
Proof.
  pose proof (Qfloor_le q) as Lo. pose proof (Qlt_floor q) as Hi.
  rewrite inject_Z_plus in Hi. change (inject_Z 1) with 1 in Hi.
  unfold Py.round_half_even.
  destruct (ltb_spec (q - inject_Z (Qfloor q)) (1 # 2)) as [A | A]; [lra |].
  destruct (ltb_spec (1 # 2) (q - inject_Z (Qfloor q))) as [B | B].
  - rewrite inject_Z_plus. change (inject_Z 1) with 1. lra.
  - destruct (Z.even (Qfloor q)); [lra |].
    rewrite inject_Z_plus. change (inject_Z 1) with 1. lra.
Qed.

Lemma round_to_cents (x : Q) : rounded_to_cents x (Py.round x 2).
Proof.
  unfold rounded_to_cents, Py.round. split.
  - exists (Py.round_half_even (x * inject_Z (Py.pow10 2))).
    rewrite Qred_correct. reflexivity.
  - rewrite Qred_correct.
    pose proof (round_half_even_error (x * inject_Z (Py.pow10 2))) as E.
    change (inject_Z (Py.pow10 2)) with 100 in *.
    set (n := inject_Z (Py.round_half_even (x * 100))) in *.
    change (n / 100) with (n * (1 # 100)). lra.
Qed.

(** X3: every number of the returned dictionary is the local of the same
    name rounded to cents: a whole number of hundredths at most half a
    hundredth away from it.  The survival ratio is rounded in the same way
    when it is finite and stays infinite otherwise.  As a consequence the
    three returned percentages add up to 100 within 0.015. *)
Theorem result_rounded_to_cents (self : FinancialHealthAnalyzer)
  (p : params) :
  0 < net_income_monthly p ->
  exists (l : Locals.t) (r : result) (t : list Q),
    returns self p l r t
    /\ rounded_to_cents (Locals.health_score l) (health_score r)
    /\ rounded_to_cents (Locals.actual_needs_pct l) (actual_needs_pct r)
    /\ rounded_to_cents (Locals.actual_wants_pct l) (actual_wants_pct r)
    /\ rounded_to_cents (Locals.actual_savings_pct l) (actual_savings_pct r)
    /\ rounded_to_cents (Locals.dsr_pct l) (dsr_pct r)
    /\ rounded_to_cents (Locals.culprit_amount l) (culprit_amount r)
    /\ rounded_to_cents (Locals.needs_surplus_amount l)
         (needs_surplus_amount r)
    /\ rounded_to_cents (Locals.wants_surplus_amount l)
         (wants_surplus_amount r)
    /\ match Locals.survival_ratio l, survival_ratio r with
       | Py.Fin x, Py.Fin y => rounded_to_cents x y
       | Py.PosInf, Py.PosInf => True
       | _, _ => False
       end
    /\ - (3 # 200)
       <= actual_needs_pct r + actual_wants_pct r + actual_savings_pct r - 100
       <= 3 # 200.
Proof.
  intro Hpos.
  exists (Val.locals p), (return_dict (Val.locals p)), (Val.divisors p).
  split; [now apply valid_returns |].
  cbn [Val.locals return_dict Locals.health_score Locals.actual_needs_pct
       Locals.actual_wants_pct Locals.actual_savings_pct Locals.dsr_pct
       Locals.culprit_amount Locals.needs_surplus_amount
       Locals.wants_surplus_amount Locals.survival_ratio health_score
       actual_needs_pct actual_wants_pct actual_savings_pct dsr_pct
       culprit_amount needs_surplus_amount wants_surplus_amount
       survival_ratio].
  do 8 (split; [apply round_to_cents |]).
  split.
  - destruct (Val.survival_ratio p) as [x |]; cbn; [apply round_to_cents | exact I].
  - destruct (round_to_cents (Val.actual_needs_pct p)) as [_ En].
    destruct (round_to_cents (Val.actual_wants_pct p)) as [_ Ew].
    destruct (round_to_cents (Val.actual_savings_pct p)) as [_ Es].
    assert (S : Val.actual_needs_pct p + Val.actual_wants_pct p
                + Val.actual_savings_pct p == 100).
    { unfold Val.actual_needs_pct, Val.actual_wants_pct,
        Val.actual_savings_pct, Val.savings_monthly_derived,
        Val.total_expenses_monthly.
      field. now apply pos_nonzero. }
    lra.
Qed.

Lemma result_rounded_to_cents_sample :
  0 < net_income_monthly (food_only (20481 # 512))
  /\ exists (l : Locals.t) (r : result) (t : list Q),
       returns used_analyzer (food_only (20481 # 512)) l r t
       /\ rounded_to_cents (Locals.culprit_amount l) (culprit_amount r)
       /\ rounded_to_cents (Locals.actual_needs_pct l) (actual_needs_pct r).
Proof.
  split; [reflexivity |].
  destruct (result_rounded_to_cents used_analyzer (food_only (20481 # 512))
              eq_refl)
    as (l & r & t & R & _ & N & _ & _ & _ & C & _).
  exists l, r, t. split; [exact R |]. split; assumption.
Defined.

(** X4: the two surplus amounts are never negative, and a surplus is
    reported exactly when the matching sub-score loses points: the needs
    surplus is positive exactly when the needs exceed 50 percent of the
    income, which is exactly when [needs_score] is below 20, and then it is
    the needs minus half the income; the wants surplus is positive exactly
    when the wants exceed 30 percent of the income, which is exactly when
    [wants_score] is below 20, and then it is the wants minus 0.3 times the
    income. *)
Theorem overspend_iff_penalty (self : FinancialHealthAnalyzer) (p : params) :
  0 < net_income_monthly p ->
  exists (l : Locals.t) (r : result) (t : list Q),
    returns self p l r t
    /\ 0 <= Locals.needs_surplus_amount l
    /\ 0 <= Locals.wants_surplus_amount l
    /\ (0 < Locals.needs_surplus_amount l <-> Locals.needs_score l < 20)
    /\ (0 < Locals.wants_surplus_amount l <-> Locals.wants_score l < 20)
    /\ (0 < Locals.needs_surplus_amount l <-> 50 < Locals.actual_needs_pct l)
    /\ (0 < Locals.wants_surplus_amount l <-> 30 < Locals.actual_wants_pct l)
    /\ (0 < Locals.needs_surplus_amount l ->
        Locals.needs_surplus_amount l
        == Locals.total_needs l - net_income_monthly p / 2)
    /\ (0 < Locals.wants_surplus_amount l ->
        Locals.wants_surplus_amount l
        == wants_misc p - (3 # 10) * net_income_monthly p).
Proof.
  intro Hpos.
  exists (Val.locals p), (return_dict (Val.locals p)), (Val.divisors p).
  split; [now apply valid_returns |].
  cbn [Val.locals Locals.needs_surplus_amount Locals.wants_surplus_amount
       Locals.needs_score Locals.wants_score Locals.actual_needs_pct
       Locals.actual_wants_pct Locals.total_needs].
  pose proof (pct_gt (Val.total_needs p) (net_income_monthly p) 50 Hpos) as Gn.
  pose proof (pct_gt (wants_misc p) (net_income_monthly p) 30 Hpos) as Gw.
  fold (Val.actual_needs_pct p) in Gn. fold (Val.actual_wants_pct p) in Gw.
  unfold Val.needs_surplus_amount, Val.wants_surplus_amount,
    Val.needs_score, Val.wants_score.
  change (net_income_monthly p / 2) with (net_income_monthly p * (1 # 2)).
  div_consts.
  set (n := Val.actual_needs_pct p) in *.
  set (w := Val.actual_wants_pct p) in *.
  clamp_cases; repeat split; intros; try lra;
    try (apply Gn; lra); try (apply Gw; lra);
    try (match goal with H : _ < n |- _ => apply Gn in H end; lra);
    try (match goal with H : _ < w |- _ => apply Gw in H end; lra);
    try (assert (~ 50 < n) by (intro N; apply Gn in N; lra); lra);
    try (assert (~ 30 < w) by (intro N; apply Gw in N; lra); lra).
Qed.

Lemma overspend_iff_penalty_sample :
  0 < net_income_monthly (food_only 60)
  /\ exists (l : Locals.t) (r : result) (t : list Q),
       returns used_analyzer (food_only 60) l r t
       /\ Locals.needs_surplus_amount l == 10
       /\ Locals.needs_score l < 20.
Proof.
  split; [reflexivity |].
  destruct (overspend_iff_penalty used_analyzer (food_only 60) eq_refl)
    as (l & r & t & R & _ & _ & S & _ & _ & _ & E & _).
  destruct (returns_locals _ _ _ _ _ R eq_refl) as (El & _ & _).
  assert (P : 0 < Locals.needs_surplus_amount l)
    by (rewrite El; vm_compute; reflexivity).
  exists l, r, t. split; [exact R |]. split.
  - rewrite (E P), El. vm_compute. reflexivity.
  - apply S, P.
Defined.

(** ** The culprit's amount *)

Lemma first_greatest_bounds (d : Py.dict) (entry : string * Q) :
  first_greatest d entry -> Forall (fun e => snd e <= snd entry) d.
Proof.
  intros (before & after & -> & Hb & Ha).
  apply Forall_app. split.
  - eapply Forall_impl; [| exact Hb]. cbv beta. intros e He. lra.
  - constructor; [lra | exact Ha].
Qed.

Lemma heaviest_bounds (p : params) :
  needs_food p <= snd (Val.heaviest p)
  /\ needs_housing p <= snd (Val.heaviest p)
  /\ needs_transport p <= snd (Val.heaviest p)
  /\ needs_utilities p <= snd (Val.heaviest p)
  /\ needs_insurance p <= snd (Val.heaviest p)
  /\ needs_debt p <= snd (Val.heaviest p).
Proof.
  pose proof (first_greatest_bounds _ _ (heaviest_first_greatest p)) as F.
  unfold Val.needs_items in F.
  repeat match goal with
         | H : Forall _ (_ :: _) |- _ =>
             let a := fresh "B" in
             apply Forall_cons_iff in H; destruct H as [a H]; cbn [snd] in a
         end.
  repeat split; assumption.
Qed.

Lemma heaviest_in (p : params) : In (Val.heaviest p) (Val.needs_items p).
Proof. apply max_step_fold_in. Qed.

(** X5: a culprit is returned exactly when [total_needs > 0].  It is then
    one of the six needs categories, [culprit_amount] is what the parameters
    give for that category, no category has a greater amount, the amount is
    positive and it is at least a sixth of [total_needs]. *)
Theorem culprit_amount_bounds (self : FinancialHealthAnalyzer) (p : params) :
  0 < net_income_monthly p ->
  exists (l : Locals.t) (r : result) (t : list Q),
    returns self p l r t
    /\ (0 < Locals.total_needs l <-> culprit_item r <> None)
    /\ (0 < Locals.total_needs l ->
        exists item : string,
          culprit_item r = Some item
          /\ Py.get (Locals.needs_items l) item
             = Some (Locals.culprit_amount l)
          /\ 0 < Locals.culprit_amount l
          /\ Locals.total_needs l <= 6 * Locals.culprit_amount l
          /\ Forall (fun e => snd e <= Locals.culprit_amount l)
               (Locals.needs_items l)).
Proof.
  intro Hpos.
  exists (Val.locals p), (return_dict (Val.locals p)), (Val.divisors p).
  split; [now apply valid_returns |].
  cbn [Val.locals return_dict Locals.total_needs Locals.culprit_amount
       Locals.needs_items culprit_item Locals.culprit_item].
  unfold Val.culprit_item, Val.culprit_amount.
  destruct (ltb_spec 0 (Val.total_needs p)) as [Htn | Htn].
  - split; [split; [discriminate | intros _; exact Htn] |].
    intros _. exists (fst (Val.heaviest p)).
    pose proof (heaviest_bounds p) as (B1 & B2 & B3 & B4 & B5 & B6).
    split; [reflexivity |].
    split.
    { apply get_in_nodup.
      - simpl. repeat constructor; simpl; intuition discriminate.
      - rewrite <- surjective_pairing. apply heaviest_in. }
    unfold Val.total_needs in *.
    split; [lra |]. split; [lra |].
    apply (first_greatest_bounds _ _ (heaviest_first_greatest p)).
  - split; [split; [intro H; exfalso; lra | intro H; now contradiction H] |].
    intro H. exfalso. lra.
Qed.

Lemma culprit_amount_bounds_sample :
  0 < net_income_monthly sample_params
  /\ exists (l : Locals.t) (r : result) (t : list Q),
       returns used_analyzer sample_params l r t
       /\ culprit_item r = Some "food"%string
       /\ Py.get (Locals.needs_items l) "food"
          = Some (Locals.culprit_amount l)
       /\ Locals.total_needs l <= 6 * Locals.culprit_amount l.
Proof.
  split; [reflexivity |].
  destruct (culprit_amount_bounds used_analyzer sample_params eq_refl)
    as (l & r & t & R & _ & B).
  destruct (returns_locals _ _ _ _ _ R eq_refl) as (El & Er & _).
  assert (P : 0 < Locals.total_needs l)
    by (rewrite El; vm_compute; reflexivity).
  destruct (B P) as (item & Hi & Hg & _ & Hs & _).
  assert (Ei : item = "food"%string).
  { rewrite Er in Hi. vm_compute in Hi. now injection Hi as <-. }
  subst item. exists l, r, t.
  split; [exact R |]. split; [exact Hi |]. split; assumption.
Defined.

Lemma needs_message_in_insights (p : params) :
  0 < Val.needs_surplus_amount p -> In (Val.needs_message p) (Val.insights p).
Proof.
  intro H. apply ltb_lt in H.
  assert (I : In (Val.needs_message p) (Val.rule_sentences p)).
  { unfold Val.rule_sentences. rewrite H.
    apply in_or_app. right. apply in_or_app. right.
    apply in_or_app. left. now left. }
  unfold Val.insights.
  destruct (Val.rule_sentences p); [contradiction | exact I].
Qed.

(** X6: whenever the needs sentence is emitted ([needs_surplus_amount > 0])
    there is a culprit with a positive amount, and the sentence in
    [insights] is the needs sentence followed by the clause naming that
    culprit: the branch in which [culprit_item] is [None] is never the one
    taken when the sentence is built. *)
Theorem needs_sentence_names_culprit (self : FinancialHealthAnalyzer)
  (p : params) :
  0 < net_income_monthly p ->
  exists (l : Locals.t) (r : result) (t : list Q),
    returns self p l r t
    /\ (0 < Locals.needs_surplus_amount l ->
        exists item : string,
          culprit_item r = Some item
          /\ 0 < Locals.culprit_amount l
          /\ In (needs_sentence (Locals.needs_surplus_amount l)
                 ++ culprit_clause item (Locals.culprit_amount l))%string
               (Locals.insights l)).
Proof.
  intro Hpos.
  exists (Val.locals p), (return_dict (Val.locals p)), (Val.divisors p).
  split; [now apply valid_returns |].
  cbn [Val.locals return_dict Locals.needs_surplus_amount
       Locals.culprit_amount Locals.insights culprit_item
       Locals.culprit_item].
  intro Hs. pose proof (needs_message_in_insights p Hs) as I.
  assert (Htn : 0 < Val.total_needs p).
  { revert Hs. unfold Val.needs_surplus_amount. clamp_cases; intro; lra. }
  unfold Val.needs_message in I.
  unfold Val.culprit_item, Val.culprit_amount in *.
  destruct (ltb_spec 0 (Val.total_needs p)) as [_ | N]; [| exfalso; lra].
  exists (fst (Val.heaviest p)).
  split; [reflexivity |]. split; [| exact I].
  pose proof (heaviest_bounds p) as (B1 & B2 & B3 & B4 & B5 & B6).
  unfold Val.total_needs in Htn. lra.
Qed.

Lemma needs_sentence_names_culprit_sample :
  0 < net_income_monthly (food_only 60)
  /\ exists (l : Locals.t) (r : result) (t : list Q),
       returns used_analyzer (food_only 60) l r t
       /\ In (needs_sentence (Locals.needs_surplus_amount l)
              ++ culprit_clause "food" (Locals.culprit_amount l))%string
            (Locals.insights l).
Proof.
  split; [reflexivity |].
  destruct (needs_sentence_names_culprit used_analyzer (food_only 60) eq_refl)
    as (l & r & t & R & B).
  destruct (returns_locals _ _ _ _ _ R eq_refl) as (El & Er & _).
  assert (P : 0 < Locals.needs_surplus_amount l)
    by (rewrite El; vm_compute; reflexivity).
  destruct (B P) as (item & Hi & _ & Hin).
  assert (Ei : item = "food"%string).
  { rewrite Er in Hi. vm_compute in Hi. now injection Hi as <-. }
  subst item. exists l, r, t. split; assumption.
Defined.

(** ** When the positive sentence is the text *)

(** The positive sentence opens with the two bytes 226 and 156; every
    sentence a rule appends opens otherwise. *)
Lemma positive_sentence_head :
  exists s : string,
    positive_sentence = String "226"%char (String "156"%char s).
Proof.
  unfold positive_sentence. cbn [String.append]. eexists. reflexivity.
Qed.

Lemma rule_sentences_heads (p : params) :
  Forall (fun h : string =>
            exists (c1 c2 : ascii) (s : string),
              h = String c1 (String c2 s)
              /\ (c1 <> "226"%char \/ c2 <> "156"%char))
    (Val.rule_sentences p).
Proof.
  unfold Val.rule_sentences.
  apply Forall_app. split; [| apply Forall_app; split;
                               [| apply Forall_app; split]];
    match goal with
    | |- Forall _ (if ?c then _ else _) => destruct c; [| constructor]
    end;
    (constructor; [| constructor]).
  - unfold crisis_sentence. cbn [String.append].
    do 3 eexists. split; [reflexivity | right; discriminate].
  - unfold debt_sentence. cbn [String.append].
    do 3 eexists. split; [reflexivity | right; discriminate].
  - unfold Val.needs_message, needs_sentence.
    destruct (Val.culprit_item p); cbn [String.append];
      do 3 eexists; (split; [reflexivity | left; discriminate]).
  - unfold wants_sentence. cbn [String.append].
    do 3 eexists. split; [reflexivity | left; discriminate].
Qed.

Lemma rule_sentences_not_positive (p : params) :
  ~ In positive_sentence (Val.rule_sentences p).
Proof.
  intro I. pose proof (rule_sentences_heads p) as F.
  rewrite Forall_forall in F.
  destruct (F _ I) as (c1 & c2 & s & E & D).
  destruct positive_sentence_head as [s' E']. rewrite E' in E.
  injection E as H1 H2 _. destruct D as [D | D]; congruence.
Qed.

Lemma join_head2 (sep : string) (c1 c2 : ascii) (s : string)
  (rest : list string) :
  exists tail : string,
    Py.join sep (String c1 (String c2 s) :: rest)
    = String c1 (String c2 tail).
Proof.
  unfold Py.join. destruct rest as [| s' rest]; simpl; eexists; reflexivity.
Qed.

Lemma positive_iff_no_rule (p : params) :
  Val.weakness_insight_text p = positive_sentence
  <-> Val.rule_sentences p = [].
Proof.
  unfold Val.weakness_insight_text, Val.insights. split.
  - pose proof (rule_sentences_heads p) as F.
    destruct (Val.rule_sentences p) as [| h rest]; [reflexivity |].
    apply Forall_cons_iff in F. destruct F as [(c1 & c2 & s & -> & D) _].
    destruct (join_head2 " " c1 c2 s rest) as [tail ->].
    destruct positive_sentence_head as [s' ->].
    intro H. injection H as H1 H2 _. destruct D as [D | D]; congruence.
  - intros ->. reflexivity.
Qed.

Lemma surplus_nonneg (x : Q) : 0 <= Py.max 0.0 x.
Proof. clamp_cases; lra. Qed.

Lemma rule_sentences_nil_iff (p : params) :
  Val.rule_sentences p = []
  <-> float_gt (Val.survival_ratio p) 1.0
      /\ Val.dsr_pct p <= 40
      /\ Val.needs_surplus_amount p == 0
      /\ Val.wants_surplus_amount p == 0.
Proof.
  split.
  - unfold Val.rule_sentences. intro H.
    destruct (Py.float_leb (Val.survival_ratio p) 1.0) eqn:E1;
      [discriminate H |].
    destruct (existsb _ _) eqn:E2; [discriminate H |].
    destruct (ltb_spec 0 (Val.needs_surplus_amount p)) as [E3 | E3];
      [discriminate H |].
    destruct (ltb_spec 0 (Val.wants_surplus_amount p)) as [E4 | E4];
      [discriminate H |].
    split.
    { destruct (Val.survival_ratio p) as [q |];
        cbn [Py.float_leb float_gt] in *; [| exact I].
      now apply leb_gt. }
    split.
    { revert E2. unfold Val.dsr_status.
      destruct (leb_spec (Val.dsr_pct p) 15);
        destruct (leb_spec (Val.dsr_pct p) 40);
        destruct (leb_spec (Val.dsr_pct p) 50);
        intro E; vm_compute in E; try discriminate E; lra. }
    pose proof (surplus_nonneg (Val.total_needs p
                                - 0.50 * net_income_monthly p)) as Nn.
    pose proof (surplus_nonneg (wants_misc p
                                - 0.30 * net_income_monthly p)) as Nw.
    fold (Val.needs_surplus_amount p) in Nn.
    fold (Val.wants_surplus_amount p) in Nw.
    split; lra.
  - intros (Hs & Hd & Hn & Hw). apply no_rule_fires; try assumption.
    unfold Val.dsr_status.
    destruct (leb_spec (Val.dsr_pct p) 15); [now left |].
    destruct (leb_spec (Val.dsr_pct p) 40); [now right | exfalso; lra].
Qed.

(** X7: the returned text is the positive sentence exactly when none of the
    four rules fires, that is, when the survival ratio is above 1, the debt
    ratio is at most 40 percent, and neither surplus is positive.  The
    positive sentence never appears next to another sentence, and [insights]
    always holds between one and four sentences. *)
Theorem positive_sentence_iff (self : FinancialHealthAnalyzer) (p : params) :
  0 < net_income_monthly p ->
  exists (l : Locals.t) (r : result) (t : list Q),
    returns self p l r t
    /\ (weakness_insight_text r = positive_sentence
        <-> float_gt (Locals.survival_ratio l) 1.0
            /\ Locals.dsr_pct l <= 40
            /\ Locals.needs_surplus_amount l == 0
            /\ Locals.wants_surplus_amount l == 0)
    /\ (In positive_sentence (Locals.insights l)
        <-> Locals.insights l = [positive_sentence])
    /\ (1 <= length (Locals.insights l) <= 4)%nat.
Proof.
  intro Hpos.
  exists (Val.locals p), (return_dict (Val.locals p)), (Val.divisors p).
  split; [now apply valid_returns |].
  cbn [Val.locals return_dict Locals.survival_ratio Locals.dsr_pct
       Locals.needs_surplus_amount Locals.wants_surplus_amount
       Locals.insights weakness_insight_text Locals.weakness_insight_text].
  split; [rewrite positive_iff_no_rule; apply rule_sentences_nil_iff |].
  split.
  - split; [| intros ->; now left].
    pose proof (rule_sentences_not_positive p) as N.
    unfold Val.insights.
    destruct (Val.rule_sentences p) as [| h rest]; [reflexivity |].
    intro I. contradiction.
  - unfold Val.insights, Val.rule_sentences.
    destruct (Py.float_leb _ _); destruct (existsb _ _);
      destruct (Py.ltb 0 (Val.needs_surplus_amount p));
      destruct (Py.ltb 0 (Val.wants_surplus_amount p));
      cbn [app length]; lia.
Qed.

Lemma positive_sentence_iff_sample :
  0 < net_income_monthly sample_params
  /\ exists (l : Locals.t) (r : result) (t : list Q),
       returns used_analyzer sample_params l r t
       /\ weakness_insight_text r = positive_sentence
       /\ (1 <= length (Locals.insights l) <= 4)%nat.
Proof.
  split; [reflexivity |].
  destruct (positive_sentence_iff used_analyzer sample_params eq_refl)
    as (l & r & t & R & T & _ & N).
  destruct (returns_locals _ _ _ _ _ R eq_refl) as (El & _ & _).
  exists l, r, t. split; [exact R |]. split; [| exact N].
  apply T. rewrite El.
  cbn [Val.locals Locals.survival_ratio Locals.dsr_pct
       Locals.needs_surplus_amount Locals.wants_surplus_amount].
  repeat split; vm_compute; try reflexivity; discriminate.
Defined.

(** ** The debt sentence and the debt sub-score *)

Lemma debt_sentence_in_insights (p : params) :
  existsb (String.eqb (Val.dsr_status p)) ["Warning"; "Critical"]%string
  = true ->
  In (debt_sentence (Val.dsr_status p) (Val.dsr_pct p)) (Val.insights p).
Proof.
  intro H.
  assert (I : In (debt_sentence (Val.dsr_status p) (Val.dsr_pct p))
                (Val.rule_sentences p)).
  { unfold Val.rule_sentences. rewrite H.
    apply in_or_app. right. apply in_or_app. left. now left. }
  unfold Val.insights.
  destruct (Val.rule_sentences p); [contradiction | exact I].
Qed.

(** X8: the debt sub-score agrees with the returned [dsr_status].  With
    ["Excellent"] the score is at least 15.625 of 25, with ["Good"] it is
    below 15.625, and with ["Warning"] or ["Critical"] it is 0 and the debt
    sentence, built from that status and the debt ratio, is among the
    insights.  The score is 0 exactly from a debt ratio of 40 percent on, and
    25 exactly when the debt ratio is at most 0. *)
Theorem debt_score_by_status (self : FinancialHealthAnalyzer) (p : params) :
  0 < net_income_monthly p ->
  exists (l : Locals.t) (r : result) (t : list Q),
    returns self p l r t
    /\ (dsr_status r = "Excellent"%string ->
        125 # 8 <= Locals.debt_score l)
    /\ (dsr_status r = "Good"%string -> Locals.debt_score l < 125 # 8)
    /\ (dsr_status r = "Warning"%string \/ dsr_status r = "Critical"%string ->
        Locals.debt_score l == 0
        /\ In (debt_sentence (dsr_status r) (Locals.dsr_pct l))
             (Locals.insights l))
    /\ (Locals.debt_score l == 0 <-> 40 <= Locals.dsr_pct l)
    /\ (Locals.debt_score l == 25 <-> Locals.dsr_pct l <= 0).
Proof.
  intro Hpos.
  exists (Val.locals p), (return_dict (Val.locals p)), (Val.divisors p).
  split; [now apply valid_returns |].
  cbn [Val.locals return_dict Locals.debt_score Locals.dsr_pct
       Locals.insights dsr_status Locals.dsr_status].
  assert (B : (Val.dsr_status p = "Excellent"%string
               -> Val.dsr_pct p <= 15)
              /\ (Val.dsr_status p = "Good"%string
                  -> 15 < Val.dsr_pct p)
              /\ (Val.dsr_status p = "Warning"%string
                  \/ Val.dsr_status p = "Critical"%string
                  -> 40 < Val.dsr_pct p
                     /\ existsb (String.eqb (Val.dsr_status p))
                          ["Warning"; "Critical"]%string = true)).
  { unfold Val.dsr_status.
    destruct (leb_spec (Val.dsr_pct p) 15);
      destruct (leb_spec (Val.dsr_pct p) 40);
      destruct (leb_spec (Val.dsr_pct p) 50);
      repeat split; intros;
      repeat match goal with
             | H : _ \/ _ |- _ => destruct H
             end;
      try discriminate; try reflexivity; lra. }
  destruct B as (Be & Bg & Bw).
  unfold Val.debt_score. div_consts.
  set (d := Val.dsr_pct p) in *.
  split; [intro H; apply Be in H; clamp_cases; lra |].
  split; [intro H; apply Bg in H; clamp_cases; lra |].
  split.
  { intro H. destruct (Bw H) as [L E]. split.
    - clamp_cases; lra.
    - now apply debt_sentence_in_insights. }
  split; clamp_cases; split; intro; lra.
Qed.

Lemma debt_score_by_status_sample :
  0 < net_income_monthly (with_needs_debt sample_params 13000)
  /\ exists (l : Locals.t) (r : result) (t : list Q),
       returns used_analyzer (with_needs_debt sample_params 13000) l r t
       /\ dsr_status r = "Warning"%string
       /\ Locals.debt_score l == 0
       /\ In (debt_sentence (dsr_status r) (Locals.dsr_pct l))
            (Locals.insights l).
Proof.
  split; [reflexivity |].
  destruct (debt_score_by_status used_analyzer
              (with_needs_debt sample_params 13000) eq_refl)
    as (l & r & t & R & _ & _ & W & _).
  destruct (returns_locals _ _ _ _ _ R eq_refl) as (_ & Er & _).
  assert (S : dsr_status r = "Warning"%string)
    by (rewrite Er; vm_compute; reflexivity).
  exists l, r, t. split; [exact R |]. split; [exact S |].
  apply W. now left.
Defined.

(** ** The crisis sentence and the savings sub-score *)

Lemma crisis_sentence_head :
  exists s : string,
    crisis_sentence = String "226"%char (String "143"%char s).
Proof.
  unfold crisis_sentence. cbn [String.append]. eexists. reflexivity.
Qed.

Lemma not_crisis_sentence (c1 c2 : ascii) (s : string) :
  c1 <> "226"%char \/ c2 <> "143"%char ->
  String c1 (String c2 s) <> crisis_sentence.
Proof.
  intros D E. destruct crisis_sentence_head as [s' E']. rewrite E' in E.
  injection E as H1 H2 _. destruct D as [D | D]; congruence.
Qed.

Lemma crisis_sentence_rule (p : params) :
  In crisis_sentence (Val.insights p)
  <-> Py.float_leb (Val.survival_ratio p) 1.0 = true.
Proof.
  unfold Val.insights, Val.rule_sentences.
  destruct (Py.float_leb (Val.survival_ratio p) 1.0).
  - cbn [app]. split; [reflexivity | intros _; now left].
  - split; [| discriminate]. intro I. exfalso. revert I.
    assert (Nd : debt_sentence (Val.dsr_status p) (Val.dsr_pct p)
                 <> crisis_sentence)
      by (unfold debt_sentence; cbn [String.append];
          apply not_crisis_sentence; right; discriminate).
    assert (Nn : Val.needs_message p <> crisis_sentence)
      by (unfold Val.needs_message, needs_sentence;
          destruct (Val.culprit_item p); cbn [String.append];
          apply not_crisis_sentence; left; discriminate).
    assert (Nw : wants_sentence (Val.wants_surplus_amount p)
                 <> crisis_sentence)
      by (unfold wants_sentence; cbn [String.append];
          apply not_crisis_sentence; left; discriminate).
    assert (Np : positive_sentence <> crisis_sentence)
      by (unfold positive_sentence; cbn [String.append];
          apply not_crisis_sentence; right; discriminate).
    destruct (existsb _ _);
      destruct (Py.ltb 0 (Val.needs_surplus_amount p));
      destruct (Py.ltb 0 (Val.wants_surplus_amount p));
      cbn [app In]; intuition congruence.
Qed.

Lemma crisis_rule_iff (p : params) :
  0 < net_income_monthly p ->
  (Py.float_leb (Val.survival_ratio p) 1.0 = true
   <-> Val.savings_monthly_derived p <= 0).
Proof.
  intro Hpos. unfold Val.survival_ratio, Val.savings_monthly_derived.
  destruct (ltb_spec 0 (Val.total_expenses_monthly p)) as [Hte | Hte];
    cbn [Py.float_leb].
  - rewrite leb_le.
    pose proof (div_lt_iff (net_income_monthly p)
                  (Val.total_expenses_monthly p) 1.0 Hte) as H1.
    assert (E : net_income_monthly p / Val.total_expenses_monthly p
                * Val.total_expenses_monthly p == net_income_monthly p)
      by (field; now apply pos_nonzero).
    split; intro L.
    + assert (M : net_income_monthly p / Val.total_expenses_monthly p
                  * Val.total_expenses_monthly p
                  <= 1.0 * Val.total_expenses_monthly p)
        by (apply Qmult_le_compat_r; [exact L | lra]).
      lra.
    + apply Qnot_lt_le. intro N.
      assert (M : 1.0 * Val.total_expenses_monthly p
                  < net_income_monthly p / Val.total_expenses_monthly p
                    * Val.total_expenses_monthly p)
        by (apply Qmult_lt_compat_r; assumption).
      lra.
  - split; [discriminate | intro; exfalso; lra].
Qed.

(** X9: the crisis sentence is among the insights exactly when nothing is
    left of the income ([savings_monthly_derived <= 0]), and it is then the
    first sentence.  That is also exactly when the savings sub-score is 0,
    and the health score, rounded or not, is then at most 65.  The savings
    sub-score is its full 35 exactly when at least a fifth of the income is
    left. *)
Theorem crisis_iff_no_savings (self : FinancialHealthAnalyzer) (p : params) :
  0 < net_income_monthly p ->
  exists (l : Locals.t) (r : result) (t : list Q),
    returns self p l r t
    /\ Locals.savings_monthly_derived l
       = net_income_monthly p - Locals.total_expenses_monthly l
    /\ (In crisis_sentence (Locals.insights l)
        <-> Locals.savings_monthly_derived l <= 0)
    /\ (In crisis_sentence (Locals.insights l) ->
        exists others : list string,
          Locals.insights l = crisis_sentence :: others)
    /\ (Locals.savings_score l == 0
        <-> Locals.savings_monthly_derived l <= 0)
    /\ (Locals.savings_score l == 35
        <-> net_income_monthly p / 5 <= Locals.savings_monthly_derived l)
    /\ (Locals.savings_monthly_derived l <= 0 ->
        Locals.health_score l <= 65 /\ health_score r <= 65).
Proof.
  intro Hpos.
  exists (Val.locals p), (return_dict (Val.locals p)), (Val.divisors p).
  split; [now apply valid_returns |].
  cbn [Val.locals return_dict Locals.savings_monthly_derived
       Locals.total_expenses_monthly Locals.insights Locals.savings_score
       Locals.health_score health_score].
  split; [reflexivity |].
  split; [rewrite crisis_sentence_rule; now apply crisis_rule_iff |].
  split.
  { rewrite crisis_sentence_rule. intro H.
    unfold Val.insights, Val.rule_sentences. rewrite H. cbn [app].
    eexists. reflexivity. }
  pose proof (pct_le (Val.savings_monthly_derived p) (net_income_monthly p)
                0 Hpos) as S0.
  pose proof (pct_ge (Val.savings_monthly_derived p) (net_income_monthly p)
                20 Hpos) as S20.
  fold (Val.actual_savings_pct p) in S0, S20.
  assert (Z : Val.savings_score p == 0
              <-> Val.savings_monthly_derived p <= 0).
  { unfold Val.savings_score. div_consts.
    set (s := Val.actual_savings_pct p) in *.
    split; intro H.
    - assert (s <= 0) by (revert H; clamp_cases; intro; lra).
      apply S0 in H0. lra.
    - assert (s <= 0) by (apply S0; lra). clamp_cases; lra. }
  split; [exact Z |].
  split.
  { unfold Val.savings_score.
    change (net_income_monthly p / 5) with (net_income_monthly p * (1 # 5)).
    div_consts. set (s := Val.actual_savings_pct p) in *.
    split; intro H.
    - assert (20 <= s) by (revert H; clamp_cases; intro; lra).
      apply S20 in H0. lra.
    - assert (20 <= s) by (apply S20; lra). clamp_cases; lra. }
  intro H. apply Z in H.
  assert (B : Val.health_score p <= 65).
  { unfold Val.health_score.
    assert (Hn : 0 <= Val.needs_score p <= 20.0)
      by (unfold Val.needs_score; apply clamp_range; lra).
    assert (Hw : 0 <= Val.wants_score p <= 20.0)
      by (unfold Val.wants_score; apply clamp_range; lra).
    assert (Hd : 0 <= Val.debt_score p <= 25.0)
      by (unfold Val.debt_score; apply clamp_range; lra).
    lra. }
  split; [exact B |].
  apply (round_range 0 65).
  change (inject_Z 0) with 0. change (inject_Z 65) with 65.
  split; [| exact B].
  unfold Val.health_score.
  assert (Hn : 0 <= Val.needs_score p <= 20.0)
    by (unfold Val.needs_score; apply clamp_range; lra).
  assert (Hw : 0 <= Val.wants_score p <= 20.0)
    by (unfold Val.wants_score; apply clamp_range; lra).
  assert (Hd : 0 <= Val.debt_score p <= 25.0)
    by (unfold Val.debt_score; apply clamp_range; lra).
  lra.
Qed.

Lemma crisis_iff_no_savings_sample :
  0 < net_income_monthly (food_only 100)
  /\ exists (l : Locals.t) (r : result) (t : list Q),
       returns used_analyzer (food_only 100) l r t
       /\ In crisis_sentence (Locals.insights l)
       /\ Locals.savings_score l == 0
       /\ health_score r <= 65.
Proof.
  split; [reflexivity |].
  destruct (crisis_iff_no_savings used_analyzer (food_only 100) eq_refl)
    as (l & r & t & R & _ & C & _ & S & _ & H).
  destruct (returns_locals _ _ _ _ _ R eq_refl) as (El & _ & _).
  assert (P : Locals.savings_monthly_derived l <= 0)
    by (rewrite El; vm_compute; discriminate).
  exists l, r, t. split; [exact R |].
  split; [apply C, P |]. split; [apply S, P | apply H, P].
Defined.

(** ** The extremes of the health score *)

Lemma savings_pct_complement (p : params) :
  0 < net_income_monthly p ->
  Val.actual_savings_pct p
  == 100 - Val.actual_needs_pct p - Val.actual_wants_pct p.
Proof.
  intro Hpos.
  unfold Val.actual_needs_pct, Val.actual_wants_pct, Val.actual_savings_pct,
    Val.savings_monthly_derived, Val.total_expenses_monthly.
  field. now apply pos_nonzero.
Qed.

Lemma sub_scores_range (p : params) :
  (0 <= Val.needs_score p <= 20)
  /\ (0 <= Val.wants_score p <= 20)
  /\ (0 <= Val.savings_score p <= 35)
  /\ (0 <= Val.debt_score p <= 25).
Proof.
  unfold Val.needs_score, Val.wants_score, Val.savings_score, Val.debt_score.
  repeat split;
    match goal with
    | |- context [Val.clamp ?hi ?raw] =>
        pose proof (clamp_range hi raw); lra
    end.
Qed.

Lemma sub_score_extremes (p : params) :
  ((Val.needs_score p == 20 <-> Val.actual_needs_pct p <= 50)
   /\ (Val.needs_score p == 0 <-> 75 <= Val.actual_needs_pct p))
  /\ ((Val.wants_score p == 20 <-> Val.actual_wants_pct p <= 30)
      /\ (Val.wants_score p == 0 <-> 50 <= Val.actual_wants_pct p))
  /\ ((Val.savings_score p == 35 <-> 20 <= Val.actual_savings_pct p)
      /\ (Val.savings_score p == 0 <-> Val.actual_savings_pct p <= 0))
  /\ ((Val.debt_score p == 25 <-> Val.dsr_pct p <= 0)
      /\ (Val.debt_score p == 0 <-> 40 <= Val.dsr_pct p)).
Proof.
  split; [| split; [| split]].
  - unfold Val.needs_score. div_consts.
    clamp_cases; repeat split; intros; lra.
  - unfold Val.wants_score. div_consts.
    clamp_cases; repeat split; intros; lra.
  - unfold Val.savings_score. div_consts.
    clamp_cases; repeat split; intros; lra.
  - unfold Val.debt_score. div_consts.
    clamp_cases; repeat split; intros; lra.
Qed.

Lemma health_score_extremes_pct (p : params) :
  0 < net_income_monthly p ->
  (Val.health_score p == 100
   <-> Val.actual_needs_pct p <= 50
       /\ Val.actual_wants_pct p <= 30
       /\ Val.dsr_pct p <= 0)
  /\ (Val.health_score p == 0
      <-> 75 <= Val.actual_needs_pct p
          /\ 50 <= Val.actual_wants_pct p
          /\ 40 <= Val.dsr_pct p).
Proof.
  intro Hpos.
  pose proof (sub_scores_range p) as (Rn & Rw & Rs & Rd).
  pose proof (savings_pct_complement p Hpos) as Es.
  destruct (sub_score_extremes p)
    as ((Sn20 & Sn0) & (Sw20 & Sw0) & (Ss35 & Ss0) & (Sd25 & Sd0)).
  unfold Val.health_score. split; split.
  - intro H.
    assert (A : Val.needs_score p == 20) by (clear - H Rn Rw Rs Rd; lra).
    assert (B : Val.wants_score p == 20) by (clear - H Rn Rw Rs Rd; lra).
    assert (C : Val.debt_score p == 25) by (clear - H Rn Rw Rs Rd; lra).
    apply Sn20 in A. apply Sw20 in B. apply Sd25 in C. auto.
  - intros (A & B & C).
    assert (S : 20 <= Val.actual_savings_pct p) by (clear - A B Es; lra).
    apply Sn20 in A. apply Sw20 in B. apply Sd25 in C. apply Ss35 in S.
    clear - A B C S. lra.
  - intro H.
    assert (A : Val.needs_score p == 0) by (clear - H Rn Rw Rs Rd; lra).
    assert (B : Val.wants_score p == 0) by (clear - H Rn Rw Rs Rd; lra).
    assert (C : Val.debt_score p == 0) by (clear - H Rn Rw Rs Rd; lra).
    apply Sn0 in A. apply Sw0 in B. apply Sd0 in C. auto.
  - intros (A & B & C).
    assert (S : Val.actual_savings_pct p <= 0) by (clear - A B Es; lra).
    apply Sn0 in A. apply Sw0 in B. apply Sd0 in C. apply Ss0 in S.
    clear - A B C S. lra.
Qed.

(** X10: the health score is 100 exactly when the needs are at most half of
    the income, the wants at most 0.3 times the income and the debt payment
    is not positive; it is 0 exactly when the needs are at least three
    quarters of the income, the wants at least half of it and the debt
    payment at least 0.4 times the income.  The returned, rounded score is
    then 100, respectively 0, as well. *)
Theorem health_score_extremes (self : FinancialHealthAnalyzer) (p : params) :
  0 < net_income_monthly p ->
  exists (l : Locals.t) (r : result) (t : list Q),
    returns self p l r t
    /\ (Locals.health_score l == 100
        <-> Locals.total_needs l <= net_income_monthly p / 2
            /\ wants_misc p <= (3 # 10) * net_income_monthly p
            /\ needs_debt p <= 0)
    /\ (Locals.health_score l == 0
        <-> (3 # 4) * net_income_monthly p <= Locals.total_needs l
            /\ net_income_monthly p / 2 <= wants_misc p
            /\ (2 # 5) * net_income_monthly p <= needs_debt p)
    /\ (Locals.health_score l == 100 -> health_score r == 100)
    /\ (Locals.health_score l == 0 -> health_score r == 0).
Proof.
  intro Hpos.
  exists (Val.locals p), (return_dict (Val.locals p)), (Val.divisors p).
  split; [now apply valid_returns |].
  cbn [Val.locals return_dict Locals.health_score Locals.total_needs
       health_score].
  destruct (health_score_extremes_pct p Hpos) as [Full Null].
  pose proof (pct_le (Val.total_needs p) (net_income_monthly p) 50 Hpos) as N50.
  pose proof (pct_ge (Val.total_needs p) (net_income_monthly p) 75 Hpos) as N75.
  pose proof (pct_le (wants_misc p) (net_income_monthly p) 30 Hpos) as W30.
  pose proof (pct_ge (wants_misc p) (net_income_monthly p) 50 Hpos) as W50.
  pose proof (pct_le (needs_debt p) (net_income_monthly p) 0 Hpos) as D0.
  pose proof (pct_ge (needs_debt p) (net_income_monthly p) 40 Hpos) as D40.
  fold (Val.actual_needs_pct p) in N50, N75.
  fold (Val.actual_wants_pct p) in W30, W50.
  fold (Val.dsr_pct p) in D0, D40.
  change (net_income_monthly p / 2) with (net_income_monthly p * (1 # 2)).
  split.
  { rewrite Full. split; intros (A & B & C); repeat split.
    - apply N50 in A. clear - A. lra.
    - apply W30 in B. clear - B. lra.
    - apply D0 in C. clear - C. lra.
    - apply N50. clear - A. lra.
    - apply W30. clear - B. lra.
    - apply D0. clear - C. lra. }
  split.
  { rewrite Null. split; intros (A & B & C); repeat split.
    - apply N75 in A. clear - A. lra.
    - apply W50 in B. clear - B. lra.
    - apply D40 in C. clear - C. lra.
    - apply N75. clear - A. lra.
    - apply W50. clear - B. lra.
    - apply D40. clear - C. lra. }
  split; intro H.
  - rewrite (round_comp _ _ H 2%nat 2%nat eq_refl). reflexivity.
  - rewrite (round_comp _ _ H 2%nat 2%nat eq_refl). reflexivity.
Qed.

Lemma health_score_extremes_sample :
  0 < net_income_monthly (food_only 0)
  /\ exists (l : Locals.t) (r : result) (t : list Q),
       returns used_analyzer (food_only 0) l r t
       /\ Locals.health_score l == 100
       /\ health_score r == 100.
Proof.
  split; [reflexivity |].
  destruct (health_score_extremes used_analyzer (food_only 0) eq_refl)
    as (l & r & t & R & F & _ & Fr & _).
  destruct (returns_locals _ _ _ _ _ R eq_refl) as (El & _ & _).
  assert (P : Locals.health_score l == 100).
  { apply F. rewrite El. cbn [Val.locals Locals.total_needs].
    repeat split; vm_compute; discriminate. }
  exists l, r, t. split; [exact R |]. split; [exact P | apply Fr, P].
Defined.

(** ** Monotonicity *)

Lemma pct_mono (a b i : Q) : 0 < i -> a <= b -> a / i * 100 <= b / i * 100.
Proof.
  intros Hi H. pose proof (div_le_mono a b i Hi H) as D.
  set (x := a / i) in *. set (y := b / i) in *. lra.
Qed.

Lemma scores_antitone (p q : params) :
  Val.actual_needs_pct p <= Val.actual_needs_pct q ->
  Val.actual_wants_pct p <= Val.actual_wants_pct q ->
  Val.actual_savings_pct q <= Val.actual_savings_pct p ->
  Val.dsr_pct p <= Val.dsr_pct q ->
  Val.needs_score q <= Val.needs_score p
  /\ Val.wants_score q <= Val.wants_score p
  /\ Val.savings_score q <= Val.savings_score p
  /\ Val.debt_score q <= Val.debt_score p
  /\ Val.health_score q <= Val.health_score p.
Proof.
  intros Hn Hw Hs Hd.
  assert (A : Val.needs_score q <= Val.needs_score p)
    by (unfold Val.needs_score; apply clamp_mono; div_consts; lra).
  assert (B : Val.wants_score q <= Val.wants_score p)
    by (unfold Val.wants_score; apply clamp_mono; div_consts; lra).
  assert (C : Val.savings_score q <= Val.savings_score p)
    by (unfold Val.savings_score; apply clamp_mono; div_consts; lra).
  assert (D : Val.debt_score q <= Val.debt_score p)
    by (unfold Val.debt_score; apply clamp_mono; div_consts; lra).
  repeat split; try assumption. unfold Val.health_score. lra.
Qed.

(** X11: with the same positive income, raising any of the seven expenses
    (and lowering none) never raises any of the four sub-scores, the health
    score, or the returned, rounded health score. *)
Theorem health_score_antitone_in_expenses (self : FinancialHealthAnalyzer)
  (p q : params) :
  0 < net_income_monthly p ->
  expenses_le p q ->
  exists (lp lq : Locals.t) (rp rq : result) (tp tq : list Q),
    returns self p lp rp tp
    /\ returns self q lq rq tq
    /\ Locals.needs_score lq <= Locals.needs_score lp
    /\ Locals.wants_score lq <= Locals.wants_score lp
    /\ Locals.savings_score lq <= Locals.savings_score lp
    /\ Locals.debt_score lq <= Locals.debt_score lp
    /\ Locals.health_score lq <= Locals.health_score lp
    /\ health_score rq <= health_score rp.
Proof.
  intros Hpos (Hi & H1 & H2 & H3 & H4 & H5 & H6 & H7).
  assert (Hposq : 0 < net_income_monthly q) by (rewrite <- Hi; exact Hpos).
  exists (Val.locals p), (Val.locals q), (return_dict (Val.locals p)),
    (return_dict (Val.locals q)), (Val.divisors p), (Val.divisors q).
  split; [now apply valid_returns |].
  split; [now apply valid_returns |].
  cbn [Val.locals return_dict Locals.needs_score Locals.wants_score
       Locals.savings_score Locals.debt_score Locals.health_score
       health_score].
  destruct (scores_antitone p q) as (A & B & C & D & E).
  - unfold Val.actual_needs_pct, Val.total_needs. rewrite <- Hi.
    apply pct_mono; [exact Hpos | lra].
  - unfold Val.actual_wants_pct. rewrite <- Hi.
    apply pct_mono; [exact Hpos | lra].
  - unfold Val.actual_savings_pct, Val.savings_monthly_derived,
      Val.total_expenses_monthly, Val.total_needs. rewrite <- Hi.
    apply pct_mono; [exact Hpos | lra].
  - unfold Val.dsr_pct. rewrite <- Hi. apply pct_mono; [exact Hpos | lra].
  - repeat split; try assumption. now apply round_mono.
Qed.

Lemma health_score_antitone_in_expenses_sample :
  0 < net_income_monthly sample_params
  /\ expenses_le sample_params (with_needs_debt sample_params 2000)
  /\ exists (lp lq : Locals.t) (rp rq : result) (tp tq : list Q),
       returns used_analyzer sample_params lp rp tp
       /\ returns used_analyzer (with_needs_debt sample_params 2000) lq rq tq
       /\ health_score rq <= health_score rp.
Proof.
  assert (L : expenses_le sample_params (with_needs_debt sample_params 2000))
    by (repeat split; vm_compute; discriminate).
  split; [reflexivity |]. split; [exact L |].
  destruct (health_score_antitone_in_expenses used_analyzer sample_params
              (with_needs_debt sample_params 2000) eq_refl L)
    as (lp & lq & rp & rq & tp & tq & Rp & Rq & _ & _ & _ & _ & _ & H).
  exists lp, lq, rp, rq, tp, tq.
  split; [exact Rp |]. split; assumption.
Defined.

Lemma div_antitone (a i j : Q) :
  0 <= a -> 0 < i -> i <= j -> a / j <= a / i.
Proof.
  intros Ha Hi Hij. assert (Hj : 0 < j) by lra.
  apply Qle_shift_div_r; [exact Hj |].
  assert (E : a / i * i == a) by (field; now apply pos_nonzero).
  assert (N : 0 <= a / i) by (apply Qle_shift_div_l; [exact Hi | lra]).
  assert (D : 0 <= j - i) by lra.
  pose proof (Qmult_le_0_compat _ _ N D) as M.
  set (x := a / i) in *. lra.
Qed.

Lemma pct_antitone (a i j : Q) :
  0 <= a -> 0 < i -> i <= j -> a / j * 100 <= a / i * 100.
Proof.
  intros Ha Hi Hij. pose proof (div_antitone a i j Ha Hi Hij) as D.
  set (x := a / i) in *. set (y := a / j) in *. lra.
Qed.

Lemma savings_pct_by_expenses (p : params) :
  0 < net_income_monthly p ->
  Val.actual_savings_pct p
  == 100 - Val.total_expenses_monthly p / net_income_monthly p * 100.
Proof.
  intro Hpos. unfold Val.actual_savings_pct, Val.savings_monthly_derived.
  field. now apply pos_nonzero.
Qed.

(** X12: with the same expenses, of which the total needs, the wants and the
    debt payment are not negative, a higher income never lowers any of the
    four sub-scores, the health score, or the returned, rounded health
    score. *)
Theorem health_score_monotone_in_income (self : FinancialHealthAnalyzer)
  (p : params) (i j : Q) :
  0 < i -> i <= j ->
  0 <= needs_food p + needs_housing p + needs_transport p
       + needs_utilities p + needs_insurance p + needs_debt p ->
  0 <= wants_misc p ->
  0 <= needs_debt p ->
  exists (li lj : Locals.t) (ri rj : result) (ti tj : list Q),
    returns self (with_net_income p i) li ri ti
    /\ returns self (with_net_income p j) lj rj tj
    /\ Locals.needs_score li <= Locals.needs_score lj
    /\ Locals.wants_score li <= Locals.wants_score lj
    /\ Locals.savings_score li <= Locals.savings_score lj
    /\ Locals.debt_score li <= Locals.debt_score lj
    /\ Locals.health_score li <= Locals.health_score lj
    /\ health_score ri <= health_score rj.
Proof.
  intros Hi Hij Hn Hw Hd. assert (Hj : 0 < j) by lra.
  exists (Val.locals (with_net_income p i)),
    (Val.locals (with_net_income p j)),
    (return_dict (Val.locals (with_net_income p i))),
    (return_dict (Val.locals (with_net_income p j))),
    (Val.divisors (with_net_income p i)),
    (Val.divisors (with_net_income p j)).
  split; [now apply valid_returns |].
  split; [now apply valid_returns |].
  cbn [Val.locals return_dict Locals.needs_score Locals.wants_score
       Locals.savings_score Locals.debt_score Locals.health_score
       health_score].
  destruct (scores_antitone (with_net_income p j) (with_net_income p i))
    as (A & B & C & D & E).
  - unfold Val.actual_needs_pct, Val.total_needs.
    cbn [with_net_income net_income_monthly needs_food needs_housing
         needs_transport needs_utilities needs_insurance needs_debt].
    now apply pct_antitone.
  - unfold Val.actual_wants_pct.
    cbn [with_net_income net_income_monthly wants_misc].
    now apply pct_antitone.
  - rewrite (savings_pct_by_expenses (with_net_income p i) Hi),
      (savings_pct_by_expenses (with_net_income p j) Hj).
    unfold Val.total_expenses_monthly, Val.total_needs.
    cbn [with_net_income net_income_monthly needs_food needs_housing
         needs_transport needs_utilities needs_insurance needs_debt
         wants_misc].
    match goal with
    | |- 100 - ?a / i * 100 <= 100 - ?a / j * 100 =>
        assert (Ha : 0 <= a) by lra;
        pose proof (pct_antitone a i j Ha Hi Hij) as P;
        set (x := a / i * 100) in *; set (y := a / j * 100) in *
    end.
    lra.
  - unfold Val.dsr_pct.
    cbn [with_net_income net_income_monthly needs_debt].
    now apply pct_antitone.
  - repeat split; try assumption. now apply round_mono.
Qed.

Lemma health_score_monotone_in_income_sample :
  0 < 30000 /\ 30000 <= 40000
  /\ 0 <= wants_misc sample_params /\ 0 <= needs_debt sample_params
  /\ exists (li lj : Locals.t) (ri rj : result) (ti tj : list Q),
       returns used_analyzer (with_net_income sample_params 30000) li ri ti
       /\ returns used_analyzer (with_net_income sample_params 40000)
            lj rj tj
       /\ health_score ri <= health_score rj.
Proof.
  split; [reflexivity |]. split; [vm_compute; discriminate |].
  split; [vm_compute; discriminate |]. split; [vm_compute; discriminate |].
  destruct (health_score_monotone_in_income used_analyzer sample_params
              30000 40000)
    as (li & lj & ri & rj & ti & tj & Ri & Rj & _ & _ & _ & _ & _ & H);
    try (vm_compute; discriminate); [reflexivity |].
  exists li, lj, ri, rj, ti, tj.
  split; [exact Ri |]. split; assumption.
Defined.

(** ** A change of unit *)

Section Scale.

Variable k : Q.
Variable p : params.
Hypothesis Hk : 0 < k.
Hypothesis Hpos : 0 < net_income_monthly p.

Lemma scale_income_pos : 0 < net_income_monthly (scale k p).
Proof.
  cbn [scale net_income_monthly].
  pose proof (Qmult_lt_0_compat _ _ Hk Hpos). lra.
Qed.

Lemma scale_total_needs :
  Val.total_needs (scale k p) == k * Val.total_needs p.
Proof.
  unfold Val.total_needs.
  cbn [scale needs_food needs_housing needs_transport needs_utilities
       needs_insurance needs_debt].
  ring.
Qed.

Lemma scale_total_expenses :
  Val.total_expenses_monthly (scale k p) == k * Val.total_expenses_monthly p.
Proof.
  unfold Val.total_expenses_monthly. rewrite scale_total_needs.
  cbn [scale wants_misc]. ring.
Qed.

Lemma scale_quotient (a i : Q) : ~ i == 0 -> k * a / (k * i) == a / i.
Proof. intro Hi. field. split; [exact Hi | now apply pos_nonzero]. Qed.

Lemma scale_actual_needs_pct :
  Val.actual_needs_pct (scale k p) == Val.actual_needs_pct p.
Proof.
  unfold Val.actual_needs_pct. rewrite scale_total_needs.
  cbn [scale net_income_monthly].
  rewrite scale_quotient by now apply pos_nonzero. reflexivity.
Qed.

Lemma scale_actual_wants_pct :
  Val.actual_wants_pct (scale k p) == Val.actual_wants_pct p.
Proof.
  unfold Val.actual_wants_pct. cbn [scale net_income_monthly wants_misc].
  rewrite scale_quotient by now apply pos_nonzero. reflexivity.
Qed.

Lemma scale_actual_savings_pct :
  Val.actual_savings_pct (scale k p) == Val.actual_savings_pct p.
Proof.
  rewrite (savings_pct_complement _ scale_income_pos),
    (savings_pct_complement _ Hpos).
  now rewrite scale_actual_needs_pct, scale_actual_wants_pct.
Qed.

Lemma scale_dsr_pct : Val.dsr_pct (scale k p) == Val.dsr_pct p.
Proof.
  unfold Val.dsr_pct. cbn [scale net_income_monthly needs_debt].
  rewrite scale_quotient by now apply pos_nonzero. reflexivity.
Qed.

Lemma scale_health_score :
  Val.health_score (scale k p) == Val.health_score p.
Proof.
  unfold Val.health_score, Val.needs_score, Val.wants_score,
    Val.savings_score, Val.debt_score.
  now rewrite scale_actual_needs_pct, scale_actual_wants_pct,
    scale_actual_savings_pct, scale_dsr_pct.
Qed.

Lemma scale_dsr_status : Val.dsr_status (scale k p) = Val.dsr_status p.
Proof.
  unfold Val.dsr_status.
  rewrite (leb_comp _ _ scale_dsr_pct 15 15 ltac:(reflexivity)),
    (leb_comp _ _ scale_dsr_pct 40 40 ltac:(reflexivity)),
    (leb_comp _ _ scale_dsr_pct 50 50 ltac:(reflexivity)).
  reflexivity.
Qed.

Lemma scale_ltb (a b : Q) : Py.ltb (k * a) (k * b) = Py.ltb a b.
Proof.
  destruct (ltb_spec a b) as [L | L].
  - apply ltb_lt. apply Qmult_lt_l; assumption.
  - apply ltb_ge. apply Qmult_le_l; assumption.
Qed.

Lemma scale_survival_ratio :
  same_float (Val.survival_ratio (scale k p)) (Val.survival_ratio p).
Proof.
  unfold Val.survival_ratio.
  assert (E : Py.ltb 0 (Val.total_expenses_monthly (scale k p))
              = Py.ltb 0 (Val.total_expenses_monthly p)).
  { rewrite (ltb_comp 0 (k * 0) ltac:(ring) _ _ scale_total_expenses).
    apply scale_ltb. }
  rewrite E.
  destruct (ltb_spec 0 (Val.total_expenses_monthly p)) as [Hte | Hte];
    cbn [same_float]; [| exact I].
  rewrite scale_total_expenses. cbn [scale net_income_monthly].
  apply scale_quotient. now apply pos_nonzero.
Qed.

Lemma scale_survival_status :
  Val.survival_status (scale k p) = Val.survival_status p.
Proof.
  unfold Val.survival_status.
  rewrite (float_ltb_comp _ _ scale_survival_ratio 1.0 1.0
             ltac:(reflexivity)),
    (float_ltb_comp _ _ scale_survival_ratio 3.0 3.0 ltac:(reflexivity)).
  reflexivity.
Qed.

Lemma scale_max_0 (x : Q) : Py.max 0.0 (k * x) == k * Py.max 0.0 x.
Proof.
  unfold Py.max.
  rewrite (ltb_comp 0.0 (k * 0.0) ltac:(ring) (k * x) (k * x)
             ltac:(reflexivity)).
  rewrite scale_ltb. destruct (Py.ltb 0.0 x); [reflexivity | ring].
Qed.

Lemma scale_needs_surplus :
  Val.needs_surplus_amount (scale k p) == k * Val.needs_surplus_amount p.
Proof.
  unfold Val.needs_surplus_amount. rewrite <- scale_max_0.
  apply max_comp; [reflexivity |].
  rewrite scale_total_needs. cbn [scale net_income_monthly]. ring.
Qed.

Lemma scale_wants_surplus :
  Val.wants_surplus_amount (scale k p) == k * Val.wants_surplus_amount p.
Proof.
  unfold Val.wants_surplus_amount. rewrite <- scale_max_0.
  apply max_comp; [reflexivity |].
  cbn [scale net_income_monthly wants_misc]. ring.
Qed.

Lemma scale_max_step (b1 b2 e1 e2 : string * Q) :
  fst b1 = fst b2 /\ snd b1 == k * snd b2 ->
  fst e1 = fst e2 /\ snd e1 == k * snd e2 ->
  fst (Py.max_step b1 e1) = fst (Py.max_step b2 e2)
  /\ snd (Py.max_step b1 e1) == k * snd (Py.max_step b2 e2).
Proof.
  intros [Hk1 Hv1] [Hk2 Hv2]. unfold Py.max_step.
  rewrite (ltb_comp _ _ Hv1 _ _ Hv2), scale_ltb.
  destruct (Py.ltb (snd b2) (snd e2)); split; assumption.
Qed.

Lemma scale_fold_max_step (d1 d2 : Py.dict) (b1 b2 : string * Q) :
  Forall2 (fun e1 e2 => fst e1 = fst e2 /\ snd e1 == k * snd e2) d1 d2 ->
  fst b1 = fst b2 /\ snd b1 == k * snd b2 ->
  fst (fold_left Py.max_step d1 b1) = fst (fold_left Py.max_step d2 b2)
  /\ snd (fold_left Py.max_step d1 b1)
     == k * snd (fold_left Py.max_step d2 b2).
Proof.
  intro H. revert b1 b2.
  induction H as [| e1 e2 d1 d2 He Hd IH]; intros b1 b2 Hb; simpl.
  - exact Hb.
  - apply IH. now apply scale_max_step.
Qed.

Lemma scale_heaviest :
  fst (Val.heaviest (scale k p)) = fst (Val.heaviest p)
  /\ snd (Val.heaviest (scale k p)) == k * snd (Val.heaviest p).
Proof.
  unfold Val.heaviest, Val.needs_items. cbn [tl].
  apply scale_fold_max_step;
    repeat constructor; cbn [fst snd scale needs_food needs_housing
      needs_transport needs_utilities needs_insurance needs_debt];
    reflexivity.
Qed.

Lemma scale_total_needs_pos :
  Py.ltb 0 (Val.total_needs (scale k p)) = Py.ltb 0 (Val.total_needs p).
Proof.
  rewrite (ltb_comp 0 (k * 0) ltac:(ring) _ _ scale_total_needs).
  apply scale_ltb.
Qed.

Lemma scale_culprit_item :
  Val.culprit_item (scale k p) = Val.culprit_item p.
Proof.
  unfold Val.culprit_item. rewrite scale_total_needs_pos.
  destruct (Py.ltb 0 (Val.total_needs p)); [| reflexivity].
  f_equal. apply scale_heaviest.
Qed.

Lemma scale_culprit_amount :
  Val.culprit_amount (scale k p) == k * Val.culprit_amount p.
Proof.
  unfold Val.culprit_amount. rewrite scale_total_needs_pos.
  destruct (Py.ltb 0 (Val.total_needs p)); [apply scale_heaviest | ring].
Qed.

End Scale.

(** X13: the analysis does not depend on the unit of the amounts.  When the
    eight parameters are multiplied by the same [k > 0], the returned health
    score, the four percentages, the debt ratio, both statuses, the survival
    ratio and the culprit are the same, and the culprit amount and both
    surplus amounts are multiplied by [k]. *)
Theorem scores_unchanged_by_scaling (self : FinancialHealthAnalyzer)
  (k : Q) (p : params) :
  0 < k ->
  0 < net_income_monthly p ->
  exists (l l' : Locals.t) (r r' : result) (t t' : list Q),
    returns self p l r t
    /\ returns self (scale k p) l' r' t'
    /\ health_score r' = health_score r
    /\ actual_needs_pct r' = actual_needs_pct r
    /\ actual_wants_pct r' = actual_wants_pct r
    /\ actual_savings_pct r' = actual_savings_pct r
    /\ dsr_pct r' = dsr_pct r
    /\ dsr_status r' = dsr_status r
    /\ survival_ratio r' = survival_ratio r
    /\ survival_status r' = survival_status r
    /\ culprit_item r' = culprit_item r
    /\ Locals.culprit_amount l' == k * Locals.culprit_amount l
    /\ Locals.needs_surplus_amount l' == k * Locals.needs_surplus_amount l
    /\ Locals.wants_surplus_amount l' == k * Locals.wants_surplus_amount l.
Proof.
  intros Hk Hpos.
  pose proof (scale_income_pos k p Hk Hpos) as Hpos'.
  exists (Val.locals p), (Val.locals (scale k p)),
    (return_dict (Val.locals p)), (return_dict (Val.locals (scale k p))),
    (Val.divisors p), (Val.divisors (scale k p)).
  split; [now apply valid_returns |].
  split; [now apply valid_returns |].
  cbn [Val.locals return_dict Locals.health_score Locals.actual_needs_pct
       Locals.actual_wants_pct Locals.actual_savings_pct Locals.dsr_pct
       Locals.dsr_status Locals.survival_ratio Locals.survival_status
       Locals.culprit_item Locals.culprit_amount
       Locals.needs_surplus_amount Locals.wants_surplus_amount
       health_score actual_needs_pct actual_wants_pct actual_savings_pct
       dsr_pct dsr_status survival_ratio survival_status culprit_item].
  split; [apply round_comp;
          [now apply scale_health_score | reflexivity] |].
  split; [apply round_comp;
          [now apply scale_actual_needs_pct | reflexivity] |].
  split; [apply round_comp;
          [now apply scale_actual_wants_pct | reflexivity] |].
  split; [apply round_comp;
          [now apply scale_actual_savings_pct | reflexivity] |].
  split; [apply round_comp; [now apply scale_dsr_pct | reflexivity] |].
  split; [now apply scale_dsr_status |].
  split.
  { pose proof (scale_survival_ratio k p Hk) as S.
    destruct (Val.survival_ratio (scale k p)) as [a |],
             (Val.survival_ratio p) as [b |];
      cbn [same_float Py.is_not_inf Py.float_round] in *;
      try contradiction; [| reflexivity].
    f_equal. now apply round_comp. }
  split; [now apply scale_survival_status |].
  split; [now apply scale_culprit_item |].
  split; [now apply scale_culprit_amount |].
  split; [now apply scale_needs_surplus | now apply scale_wants_surplus].
Qed.

Lemma scores_unchanged_by_scaling_sample :
  0 < 100 /\ 0 < net_income_monthly sample_params
  /\ exists (l l' : Locals.t) (r r' : result) (t t' : list Q),
       returns used_analyzer sample_params l r t
       /\ returns used_analyzer (scale 100 sample_params) l' r' t'
       /\ health_score r' = health_score r
       /\ culprit_item r' = culprit_item r
       /\ Locals.culprit_amount l' == 100 * Locals.culprit_amount l.
Proof.
  split; [reflexivity |]. split; [reflexivity |].
  destruct (scores_unchanged_by_scaling used_analyzer 100 sample_params
              eq_refl eq_refl)
    as (l & l' & r & r' & t & t' & R & R' & H & _ & _ & _ & _ & _ & _ & _
        & C & A & _).
  exists l, l', r, r', t, t'.
  split; [exact R |]. split; [exact R' |]. split; [exact H |].
  split; assumption.
Defined.

(** ** The dashboard *)

(** X14: [generate_dashboard_data], whatever [llm_client] does.  With
    [net_income_monthly <= 0], and only then, it raises the analyzer's
    [ValueError]; this happens before any use of [llm_client], whose state is
    left as it was.  With [net_income_monthly > 0] no exception comes from the
    analyzer, the first use of [llm_client] is the formatting of the prompt
    from the analyzer's result, whose health score is between 0 and 100, and
    when the function returns, ["numbers"] is that result and ["panels"] is
    what the single call of [call_typhoon], on the prompt just formatted,
    returned. *)
Theorem dashboard_validates_before_client (world error panels_t : Type)
  (format : result -> world -> (error + string) * world)
  (call_typhoon : string -> world -> (error + panels_t) * world)
  (p : params) (w : world) :
  exists (out : Dashboard.raised error + Dashboard.t panels_t)
         (events : list Dashboard.event) (w' : world),
    generate_dashboard_data world error panels_t format call_typhoon p w
    = (out, events, w')
    /\ (net_income_monthly p <= 0 <->
        out = inl (Dashboard.Analyzer
                     (Py.ValueError "net_income_monthly ต้องมากกว่า 0")))
    /\ (net_income_monthly p <= 0 <-> events = [])
    /\ (net_income_monthly p <= 0 -> w' = w)
    /\ (forall e : Py.exn,
          out = inl (Dashboard.Analyzer e) -> net_income_monthly p <= 0)
    /\ (0 < net_income_monthly p ->
        exists numbers : result,
          (forall self : FinancialHealthAnalyzer,
             Py.outcome (call (analyze_nic_data self) p) = inr numbers)
          /\ 0 <= health_score numbers <= 100
          /\ hd_error events = Some (Dashboard.Format numbers)
          /\ (forall d : Dashboard.t panels_t,
                out = inr d ->
                Dashboard.numbers d = numbers
                /\ exists (user_prompt : string) (w1 w2 : world),
                     format numbers w = (inr user_prompt, w1)
                     /\ call_typhoon user_prompt w1
                        = (inr (Dashboard.panels d), w2)
                     /\ w' = w2
                     /\ events = [Dashboard.Format numbers;
                                  Dashboard.Typhoon user_prompt])).
Proof.
  unfold generate_dashboard_data, generate_dashboard_numbers.
  destruct (Qlt_le_dec 0 (net_income_monthly p)) as [Hpos | Hle].
  - rewrite (analyze_nic_data_valid _ p Hpos). cbn [Py.outcome fst].
    set (numbers := return_dict (Val.locals p)).
    assert (Hnum : forall self : FinancialHealthAnalyzer,
               Py.outcome (call (analyze_nic_data self) p) = inr numbers)
      by (intro self; now rewrite (analyze_nic_data_valid self p Hpos)).
    assert (Hrange : 0 <= health_score numbers <= 100).
    { subst numbers. cbn [return_dict health_score Val.locals
                          Locals.health_score].
      pose proof (sub_scores_range p) as (Rn & Rw & Rs & Rd).
      apply (round_range 0 100).
      change (inject_Z 0) with 0. change (inject_Z 100) with 100.
      unfold Val.health_score. lra. }
    destruct (format numbers w) as [[e | user_prompt] w1] eqn:Ef.
    + eexists _, _, _. split; [reflexivity |].
      split; [split; [intro; lra | discriminate] |].
      split; [split; [intro; lra | discriminate] |].
      split; [intro; lra |].
      split; [discriminate |].
      intros _. exists numbers.
      split; [exact Hnum |]. split; [exact Hrange |].
      split; [reflexivity | discriminate].
    + destruct (call_typhoon user_prompt w1) as [[e | pn] w2] eqn:Ec.
      * eexists _, _, _. split; [reflexivity |].
        split; [split; [intro; lra | discriminate] |].
        split; [split; [intro; lra | discriminate] |].
        split; [intro; lra |].
        split; [discriminate |].
        intros _. exists numbers.
        split; [exact Hnum |]. split; [exact Hrange |].
        split; [reflexivity | discriminate].
      * eexists _, _, _. split; [reflexivity |].
        split; [split; [intro; lra | discriminate] |].
        split; [split; [intro; lra | discriminate] |].
        split; [intro; lra |].
        split; [discriminate |].
        intros _. exists numbers.
        split; [exact Hnum |]. split; [exact Hrange |].
        split; [reflexivity |].
        intros d Hd. injection Hd as Hd. subst d.
        split; [reflexivity |].
        exists user_prompt, w1, w2. repeat split; assumption.
  - rewrite (analyze_nic_data_invalid _ p Hle). cbn [Py.outcome fst].
    eexists _, _, _. split; [reflexivity |].
    split; [split; [reflexivity | intros _; exact Hle] |].
    split; [split; [reflexivity | intros _; exact Hle] |].
    split; [reflexivity |].
    split; [intros _ _; exact Hle |].
    intro; lra.
Qed.
